(** * Change-Delivery-Accelerator-Platform: retrieval and generation core

    A shallow embedding of the retrieval-augmented generation core of the
    platform: [CodeGenerator.py], [FlexcubeTestCaseGenerator.py] and
    [FunctionDocumentGenerator.py].

    Conventions of the embedding.
    - Python [str] is [string], one [ascii] for each character; [len] is
      [String.length], [s[:n]] is [String.substring 0 n s], [a in b] on
      strings is [str_contains], [sep.join(l)] is [String.concat].
    - Python [int] is [Z]; [float] is embedded as [Q]: the code under study
      only moves, pads, slices and compares floating-point numbers, it never
      computes with them.
    - Code that talks to the outside world (the language-model backend, the
      vector store, standard output) lives in the monad [Py]: a computation
      yields the trace of the events it caused and either a value or a raised
      exception. The outside world itself is a parameter of the functions
      that use it. *)

From Stdlib Require Import ZArith QArith List Ascii Bool Lia Permutation Sorted.
From Stdlib Require String DecimalString.
From stdpp Require Import base decidable list strings gmap.

Import ListNotations.
Local Open Scope Z_scope.
Set Warnings "-register-all".

(* ===================================================================== *)
(** * Part I: definitions                                                *)
(* ===================================================================== *)

(** ** Python runtime *)

Module Py.

(** Exceptions, as far as the handlers of the code distinguish them:
    [except litellm.RateLimitError] is tried first, [except Exception]
    catches every other one. The argument is [str(e)]. *)
Inductive exn : Type :=
| RateLimitError (msg : string)
| Exception (msg : string).

Definition str_exn (e : exn) : string :=
  match e with RateLimitError m => m | Exception m => m end.

Inductive res (A : Type) : Type :=
| Ok (a : A)
| Raise (e : exn).
Arguments Ok {A} a.
Arguments Raise {A} e.

(** One chat message sent to the backend. *)
Record Message : Type := { role : string; content : string }.

(** Observable events. *)
Inductive event : Type :=
| Printed (line : string)
| Completion (model : string) (messages : list Message)
| Search (collection_name : string) (limit : Z)
| Kickoff (agent_role : string) (task_description : string)
| Sleep (seconds : Z).

(** Trace of events, then the outcome. *)
Definition M (A : Type) : Type := (list event * res A)%type.

Definition ret {A} (a : A) : M A := ([], Ok a).
Definition raise {A} (e : exn) : M A := ([], Raise e).

Definition bind {A B} (m : M A) (k : A -> M B) : M B :=
  match m with
  | (t, Ok a) => let '(t', r) := k a in (t ++ t', r)
  | (t, Raise e) => (t, Raise e)
  end.

(** [try: body except Exception as e: handler(e)]. *)
Definition try_except {A} (body : M A) (handler : exn -> M A) : M A :=
  match body with
  | (t, Ok a) => (t, Ok a)
  | (t, Raise e) => let '(t', r) := handler e in (t ++ t', r)
  end.

(** An outcome that leaves no event. *)
Definition lift {A} (r : res A) : M A := ([], r).

Definition print (line : string) : M unit := ([Printed line], Ok tt).

(** Lift the outcome of an outside call, recording the event. *)
Definition call {A} (ev : event) (outcome : res A) : M A := ([ev], outcome).

Definition trace {A} (m : M A) : list event := fst m.
Definition outcome {A} (m : M A) : res A := snd m.

(** The newline character. *)
Definition nl : string := String "010"%char EmptyString.

(** [sub in s] on strings. *)
Fixpoint str_contains (sub s : string) : bool :=
  String.prefix sub s ||
  match s with
  | EmptyString => false
  | String _ s' => str_contains sub s'
  end.

(** [s[:n] + "..."] when [len(s) > n], the idiom of every truncation in
    [CodeGenerator.py]. *)
Definition slice_to (n : nat) (s : string) : string := String.substring 0 n s.

(** [l[:n]] on lists, for any integer [n]: a negative bound counts from
    the end. *)
Definition list_slice_to {A} (n : Z) (l : list A) : list A :=
  if 0 <=? n then firstn (Z.to_nat n) l
  else firstn (Z.to_nat (Z.of_nat (length l) + n)) l.

(** Python values, as far as retrieval payloads (JSON documents) need
    them. A [dict] keeps its insertion order. *)
Inductive value : Type :=
| VNone
| VBool (b : bool)
| VInt (z : Z)
| VFloat (q : Q)
| VStr (s : string)
| VList (l : list value)
| VDict (d : list (string * value)).

(** Truth value of an object in a condition: [None], [False], zero and
    empty strings and containers are false. *)
Definition truthy (v : value) : bool :=
  match v with
  | VNone => false
  | VBool b => b
  | VInt z => negb (z =? 0)
  | VFloat q => negb (Qeq_bool q 0)
  | VStr s => negb (String.eqb s "")
  | VList l => match l with [] => false | _ :: _ => true end
  | VDict d => match d with [] => false | _ :: _ => true end
  end.

(** [d.get(key)] as an option; [key in d] is [is_Some]. *)
Fixpoint dict_lookup (key : string) (d : list (string * value)) : option value :=
  match d with
  | [] => None
  | (k, v) :: d' => if String.eqb k key then Some v else dict_lookup key d'
  end.

(** [d.get(key, default)]. *)
Definition dict_get (key : string) (default : value) (d : list (string * value)) : value :=
  match dict_lookup key d with Some v => v | None => default end.

(** [str(v)]: a string is returned as it is; for every other object it
    is the built-in [repr], a parameter here. *)
Definition str (repr : value -> string) (v : value) : string :=
  match v with
  | VStr s => s
  | _ => repr v
  end.

End Py.

Import Py.

#[global] Instance M_ret : MRet Py.M := @Py.ret.
#[global] Instance M_bind : MBind Py.M := fun A B k m => Py.bind m k.

(** A [for] loop that threads the variables it assigns. *)
Fixpoint for_loop {A S : Type} (l : list A) (body : S -> A -> Py.M S) (s : S) : Py.M S :=
  match l with
  | [] => mret s
  | x :: l' => s' ← body s x; for_loop l' body s'
  end.

(** ** External services

    The embedding model, the vector store and [numpy], as the code uses
    them. *)

Module Services.

(** [SentenceTransformer]: [encode] maps a text to its native embedding
    (the [tolist()] of the array it returns). *)
Record SentenceTransformer : Type := { encode : string -> list Q }.

(** A match of a similarity search: per the data model a payload is a
    mapping of arbitrary fields. *)
Record ScoredPoint : Type := {
  payload : list (string * value);
  score : Q
}.

(** [QdrantClient]: the catalogue of collection names and the similarity
    search; either call may fail. *)
Record QdrantClient : Type := {
  get_collections : res (list string);
  search : string -> list Q -> Z -> res (list ScoredPoint)
}.

Definition client_search (client : QdrantClient) (collection_name : string)
    (query_vector : list Q) (limit : Z) : Py.M (list ScoredPoint) :=
  call (Search collection_name limit) (search client collection_name query_vector limit).

(** [np.pad(v, (0, k), mode='constant')]: [k] zeros after [v]; a negative
    width is a [ValueError]. *)
Definition np_pad (v : list Q) (k : Z) : Py.M (list Q) :=
  if k <? 0 then raise (Exception "index can't contain negative values")
  else mret (v ++ repeat 0%Q (Z.to_nat k)).

(** [list.sort(key=lambda x: x.score, reverse=True)]: the library sort is
    stable. Each element is inserted, from the last to the first, before
    the first element whose key is not greater than its own; theorem
    [sort_desc_unique] shows that this is the only stable descending
    arrangement, whatever the algorithm that produces it. *)
Fixpoint insert_desc {A : Type} (key : A -> Q) (x : A) (l : list A) : list A :=
  match l with
  | [] => [x]
  | y :: l' =>
      if Qle_bool (key y) (key x) then x :: y :: l'
      else y :: insert_desc key x l'
  end.

Definition sort_desc {A : Type} (key : A -> Q) (l : list A) : list A :=
  foldr (insert_desc key) [] l.

(** [str(n)] for a natural number. *)
Definition decimal (n : nat) : string :=
  DecimalString.NilZero.string_of_uint (Nat.to_uint n).

(** [type(v).__name__]. *)
Definition type_name (v : value) : string :=
  match v with
  | VNone => "NoneType"
  | VBool _ => "bool"
  | VInt _ => "int"
  | VFloat _ => "float"
  | VStr _ => "str"
  | VList _ => "list"
  | VDict _ => "dict"
  end.

(** The items of a sequence handed to [join], from index [i] on: the
    first item that is not a string is a [TypeError]. *)
Fixpoint join_items (i : nat) (items : list value) : res (list string) :=
  match items with
  | [] => Ok []
  | VStr s :: rest =>
      match join_items (S i) rest with
      | Ok l => Ok (s :: l)
      | Raise e => Raise e
      end
  | v :: _ =>
      Raise (Exception ("sequence item " +:+ decimal i
                        +:+ ": expected str instance, " +:+ type_name v +:+ " found"))
  end.

(** [sep.join(items)]. *)
Definition str_join (sep : string) (items : list value) : Py.M string :=
  match join_items 0 items with
  | Ok l => mret (String.concat sep l)
  | Raise e => raise e
  end.

(** The Groq client: [chat.completions.create] with its arguments, and
    the messages of the choices it answers with. *)
Record ChatRequest : Type := {
  chat_model : string;
  chat_messages : list Message;
  chat_temperature : Q;
  chat_max_tokens : Z
}.

Record ChatCompletion : Type := { completion_choices : list Message }.

Definition chat_create (groq : ChatRequest -> res ChatCompletion) (rq : ChatRequest)
    : Py.M ChatCompletion :=
  call (Completion (chat_model rq) (chat_messages rq)) (groq rq).

(** [response.choices[0].message.content]; indexing an empty list is an
    [IndexError]. *)
Definition first_message_content (response : ChatCompletion) : Py.M string :=
  match completion_choices response with
  | [] => raise (Exception "list index out of range")
  | m :: _ => mret (content m)
  end.

End Services.

Import Services.

(** ** [CodeGenerator.py] *)

Module CodeGenerator.

(** *** The backend wrapper *)

Record LiteLLMGroqWrapper : Type := {
  llm_model : string;
  llm_api_key : option string
}.

(** The arguments of [litellm.completion]. *)
Record Request : Type := {
  req_model : string;
  req_messages : list Message;
  req_api_key : option string;
  req_max_tokens : Z;
  req_temperature : Q
}.

Record Choice : Type := { message : Message }.
Record Response : Type := { choices : list Choice }.

(** One request to the backend; [backend] gives its outcome. *)
Definition completion (backend : Request -> res Response) (rq : Request) : Py.M Response :=
  call (Completion (req_model rq) (req_messages rq)) (backend rq).

(** [response['choices'][0]['message']['content']]; indexing an empty
    list is an [IndexError]. *)
Definition first_content (response : Response) : Py.M string :=
  match choices response with
  | [] => raise (Exception "list index out of range")
  | c :: _ => mret (content (message c))
  end.

Definition rate_limit_message : string :=
  "The request exceeded the rate limit. Please try with a simpler query or try again later.".

Definition degraded_message : string :=
  "Sorry, there was an error generating the code. Please try again with more detailed requirements.".

(** The callers pass no further keyword arguments. *)
Definition chat (backend : Request -> res Response) (self : LiteLLMGroqWrapper)
    (messages : list Message) : Py.M string :=
  try_except
    (response ← completion backend
        {| req_model := llm_model self;
           req_messages := messages;
           req_api_key := llm_api_key self;
           req_max_tokens := 2048;
           req_temperature := 13 # 10 |};
     first_content response)
    (fun e =>
       match e with
       | RateLimitError _ =>
           _ ← print ("Rate limit error: " +:+ str_exn e);
           mret rate_limit_message
       | Exception _ =>
           _ ← print ("Error in LLM completion: " +:+ str_exn e);
           mret degraded_message
       end).

(** *** The service object *)

Record t : Type := {
  qdrant_url : string;
  qdrant_api_key : string;
  groq_api_key : option string;
  collections : list string;
  llm : LiteLLMGroqWrapper;
  model : option SentenceTransformer
}.

Section Retrieval.

(** [QdrantClient(url=..., api_key=...)]: building the client may fail. *)
Variable connect : string -> string -> res QdrantClient.
(** [repr] of a set of names and of a payload value (Python built-ins). *)
Variable repr_set : gset string -> string.
Variable repr : value -> string.

(** Only the first valid collection is searched. Every result of
    [client.search] is a [ScoredPoint] and has the attribute [payload], so
    the test [hasattr(result, 'payload')] keeps all of them. *)
Definition search_relevant_code (self : t) (query : string) (n_results : Z)
    : Py.M (list value) :=
  match model self with
  | None =>
      _ ← print "SentenceTransformer model not initialized. Returning empty results.";
      mret []
  | Some model =>
      try_except
        (client ← lift (connect (qdrant_url self) (qdrant_api_key self));
         let query_vector := encode model query in
         names ← lift (get_collections client);
         let existing_collections : gset string := list_to_set names in
         let valid_collections :=
           List.filter (fun col => bool_decide (col ∈ existing_collections))
                       (collections self) in
         match valid_collections with
         | [] =>
             _ ← print ("No valid collections found in Qdrant! Available: "
                         +:+ repr_set existing_collections);
             mret []
         | first :: _ =>
             all_results ←
               try_except
                 (search_results ← client_search client first query_vector n_results;
                  mret ([] ++ search_results))
                 (fun e =>
                    _ ← print ("Error searching collection " +:+ first +:+ ": "
                               +:+ str_exn e);
                    mret []);
             mret (map (fun result => VDict (payload result)) all_results)
         end)
        (fun e =>
           _ ← print ("Error in search_relevant_code: " +:+ str_exn e);
           mret [])
  end.

(** [payload[key]]: a missing key is a [KeyError]. *)
Definition dict_item (key : string) (d : list (string * value)) : Py.M value :=
  match dict_lookup key d with
  | Some v => mret v
  | None => raise (Exception key)
  end.

(** [key in payload and payload[key]], as a condition. *)
Definition present_and_true (key : string) (d : list (string * value)) : Py.M bool :=
  if bool_decide (is_Some (dict_lookup key d))
  then v ← dict_item key d; mret (truthy v)
  else mret false.

Definition _extract_content_from_payload (payload : value) : Py.M string :=
  match payload with
  | VDict d =>
      c ← present_and_true "content" d;
      if c : bool then v ← dict_item "content" d; mret (str repr v)
      else
        t ← present_and_true "text" d;
        if t : bool then v ← dict_item "text" d; mret (str repr v)
        else mret (str repr payload)
  | _ => mret (str repr payload)
  end.

End Retrieval.

(** *** Prompts

    A prompt is written as the list of its lines; [unlines] joins them with
    newlines. *)

Definition unlines (ls : list string) : string := String.concat nl ls.

(** [s if len(s) <= n else s[:n] + "..."]. *)
Definition clip (n : nat) (s : string) : string :=
  if (n <? String.length s)%nat then slice_to n s +:+ "..." else s.

Record Agent : Type := { agent_role : string; goal : string; backstory : string }.

Record Task : Type := {
  description : string;
  expected_output : string;
  agent : Agent
}.

Definition required_sections : list string :=
  [ "Intent of the Change:";
    "Affected Code or Packages:";
    "Insertion Points:";
    "New Code:";
    "Invocation of new programming unit in existing source:";
    "Explanation:";
    "Required Import:" ].

Definition code_gen_header : list string :=
  [ "";
    "You are an expert PL/SQL developer. You must provide a structured answer with **ALL** of the following sections, starting each section on a new line with the exact header shown. If a section is not applicable, write 'None' after the header.";
    "";
    "⚠️ WARNING: If you skip or omit any section or section header, your answer will be considered incomplete and rejected. Do NOT combine sections.";
    "";
    "## REQUIRED SECTIONS AND ORDER";
    "";
    "Intent of the Change:";
    "[Describe the purpose and objective.]";
    "";
    "Affected Code or Packages:";
    "[List affected packages, modules, and database objects.]";
    "";
    "Insertion Points:";
    "[Specify where changes go (file, package, function, etc.).]";
    "";
    "New Code:";
    "[Provide the new or modified PL/SQL code for direct insertion.]";
    "";
    "Invocation of new programming unit in existing source:";
    "[Show a sample usage/call, or describe where it will be called.]";
    "";
    "Explanation:";
    "[Explain why this change is appropriate and meets the requirements.]";
    "";
    "Required Import:";
    "[List packages, grants, or dependencies. If none, write 'None'.]";
    "";
    "## REQUIREMENTS" ].

Section Pipeline.

Variable connect : string -> string -> res QdrantClient.
Variable repr_set : gset string -> string.
Variable repr : value -> string.
(** [Crew(agents=[a], tasks=[task]).kickoff()], stringified: the text the
    stage produces, or a failure. *)
Variable crew_kickoff : Task -> res string.

Definition kickoff (task : Task) : Py.M string :=
  call (Kickoff (agent_role (agent task)) (description task)) (crew_kickoff task).

Definition sleep (seconds : Z) : Py.M unit := call (Sleep seconds) (Ok tt).

Definition _code_gen_task_fn (requirements : list (string * value))
    (related_examples : list value) (agent : Agent) : Py.M Task :=
  examples_text ←
    match related_examples with
    | [] => mret ""
    | example :: _ =>
        content ← _extract_content_from_payload repr example;
        mret ("Here's a related code example:" +:+ nl +:+ nl
              +:+ clip 1000 content +:+ nl +:+ nl)
    end;
  d ← dict_item "description" requirements;
  mret {| description :=
            unlines (code_gen_header ++ [ str repr d; ""; examples_text; "" ]);
          expected_output :=
            "A fully filled-out, structured answer with all seven sections above.";
          agent := agent |}.

Definition _review_task_fn (code_output : string) (agent : Agent) : Task :=
  let code_output_str := clip 1000 code_output in
  {| description :=
       unlines
         [ "Review the following PL/SQL code implementation:";
           "";
           code_output_str;
           "";
           "Provide detailed suggestions for improvement, identify any logic or syntax issues, and recommend enhancements.";
           "";
           "Respond with a list of issues (if any) and suggestions.";
           "" ];
     expected_output := "Detailed review notes and improvement suggestions.";
     agent := agent |}.

Definition _improvement_task_fn (review_notes original_code : string) (agent : Agent) : Task :=
  let review_notes_str := clip 100 review_notes in
  let original_code_str := clip 2000 original_code in
  {| description :=
       unlines
         [ "Improve the original PL/SQL implementation by applying the following reviewer feedback:";
           "";
           "Review:";
           review_notes_str;
           "";
           "Code:";
           original_code_str;
           "";
           "RESPONSE FORMAT:";
           "Intent of the Change:";
           "[Your answer]";
           "";
           "Affected Code or Packages:";
           "[Your answer]";
           "";
           "Insertion Points:";
           "[Your answer]";
           "";
           "New Code:";
           "[improved code]";
           "";
           "Invocation of new programming unit in existing source:";
           "[Your answer]";
           "";
           "Explanation:";
           "[explanation for the changes]";
           "";
           "Required Import:";
           "[package or dependency, if any]";
           "" ];
     expected_output := "Refined PL/SQL implementation in structured format.";
     agent := agent |}.

(** *** The output validator *)

Definition missing_banner (missing : list string) : string :=
  "/* Error: The following sections are missing from the generated result: "
  +:+ String.concat ", " missing +:+ ". Please retry. */" +:+ nl +:+ nl.

(** [result] is a string already: [str(result)] is [result]. *)
Definition _format_final_result (result : string) : Py.M string :=
  let result_str := result in
  missing ←
    for_loop required_sections
      (fun missing section =>
         if negb (str_contains section result_str)
         then _ ← print ("WARNING: Section '" +:+ section +:+ "' missing from result.");
              mret (missing ++ [section])
         else mret missing)
      [];
  match missing with
  | _ :: _ => mret (missing_banner missing +:+ result_str)
  | [] => mret result_str
  end.

(** *** The pipeline *)

Definition code_generator : Agent :=
  {| agent_role := "Code Generator";
     goal := "Generate clean and efficient PL/SQL code";
     backstory := "You are a seasoned PL/SQL developer focused on writing optimal and reusable code with clear documentation." |}.

Definition code_reviewer : Agent :=
  {| agent_role := "Code Reviewer";
     goal := "Ensure PL/SQL code is correct, efficient, and aligned with best practices";
     backstory := "You are a senior PL/SQL reviewer ensuring high code quality and adherence to standards." |}.

Definition code_improver : Agent :=
  {| agent_role := "Code Improver";
     goal := "Refine PL/SQL code by applying review feedback";
     backstory := "You are a meticulous engineer focused on improving PL/SQL code quality through reviewer feedback." |}.

(** [str(n)] for a length. *)
Definition str_nat (n : nat) : string :=
  DecimalString.NilZero.string_of_uint (Nat.to_uint n).

Definition run_crew_error : string :=
  "/* Error generating code: The system encountered an issue processing your request. Please try with more detailed requirements or contact support. */".

(** The traceback written to standard error in the last handler is not
    part of the trace. *)
Definition run_crew (self : t) (code_requirements : string) : Py.M string :=
  _ ← print ("Starting code generation for: " +:+ code_requirements);
  let code_requirements := clip 200 code_requirements in
  let requirements :=
    [ ("type", VStr "PL/SQL"); ("description", VStr code_requirements) ] in
  related_examples ←
    try_except
      (related_examples ←
         search_relevant_code connect repr_set self ("PL/SQL " +:+ code_requirements) 1;
       _ ← print ("Found " +:+ str_nat (length related_examples) +:+ " related examples");
       mret related_examples)
      (fun e =>
         _ ← print ("Error retrieving related examples: " +:+ str_exn e);
         mret []);
  try_except
    (task1 ← _code_gen_task_fn requirements related_examples code_generator;
     gen_result ← kickoff task1;
     _ ← print "Code generation completed";
     let gen_result_str := gen_result in
     _ ← sleep 2;
     let task2 := _review_task_fn gen_result_str code_reviewer in
     review_result ← kickoff task2;
     _ ← print "Code review completed";
     let review_result_str := review_result in
     _ ← sleep 2;
     let task3 := _improvement_task_fn review_result_str gen_result_str code_improver in
     final_result ← kickoff task3;
     _ ← print "Code improvement completed";
     let final_result_str := final_result in
     formatted_result ← _format_final_result final_result_str;
     mret formatted_result)
    (fun e =>
       _ ← print ("Error in run_crew: " +:+ str_exn e);
       mret run_crew_error).

End Pipeline.

End CodeGenerator.

(** ** [FlexcubeTestCaseGenerator.py] *)

Module FlexcubeTestCaseGenerator.

Record t : Type := {
  embedding_model : SentenceTransformer;
  original_dim : Z;
  target_dim : Z;
  qdrant_client : QdrantClient;
  collection_names : list string
}.

(** The object [__init__] builds: the dimensions are fixed there. *)
Definition init (embedding_model : SentenceTransformer) (qdrant_client : QdrantClient)
    (collections : list string) : t :=
  {| embedding_model := embedding_model;
     original_dim := 384;
     target_dim := 896;
     qdrant_client := qdrant_client;
     collection_names := collections |}.

(** A list and an array are the same sequence here, so the conversion
    of a list argument to an array leaves it as it is. *)
Definition _pad_embeddings (self : t) (embeddings : list Q) : Py.M (list Q) :=
  let pad_size := target_dim self - original_dim self in
  if 0 <? pad_size then np_pad embeddings pad_size
  else mret (list_slice_to (target_dim self) embeddings).

Definition semantic_search (self : t) (query : string) (top_k : Z) : Py.M (list value) :=
  let query_embedding := encode (embedding_model self) query in
  query_embedding ← _pad_embeddings self query_embedding;
  all_results ←
    for_loop (collection_names self)
      (fun all_results collection =>
         search_results ←
           client_search (qdrant_client self) collection query_embedding top_k;
         mret (all_results ++ search_results))
      [];
  let all_results := sort_desc score all_results in
  let top_results := list_slice_to top_k all_results in
  mret (map (fun result => dict_get "text" (VStr "") (payload result)) top_results).

Section Generation.

Variable groq : ChatRequest -> res ChatCompletion.
(** The two parsers of the generator read the answer of the backend with
    regular expressions; they are left abstract, as computations that may
    print and may raise. *)
Variable _parse_test_scenarios : string -> Py.M (list value).
Variable _parse_steps_and_result : string -> Py.M value.

Definition system_message : Message :=
  {| role := "system";
     content := "You are a professional software test engineer specializing in Flexcube testing." |}.

Definition generate_test_scenarios (self : t) (requirement : string)
    : Py.M (list value) :=
  let llm_prompt :=
    String.concat nl
      [ "";
        "        You are a professional software test engineer creating detailed test scenarios for Flexcube banking system.";
        "";
        "        REQUIREMENT: " +:+ requirement;
        "";
        "        INSTRUCTIONS:";
        "        1. Generate 10 comprehensive test scenarios covering all aspects of the requirement";
        "        2. Include both positive and negative test scenarios";
        "        3. Follow this exact output format for EACH test scenario:";
        "";
        "        Test Case ID: TC_001";
        "        Test Type: Positive/Negative";
        "        Test Scenario: [Clear scenario description in one sentence]";
        "        Test Case Description: [Detailed explanation of the test scenario]";
        "";
        "        GENERATE 10 TEST SCENARIOS COVERING ALL ASPECTS OF THE REQUIREMENT.";
        "        " ] in
  try_except
    (chat_completion ←
       chat_create groq
         {| chat_model := "llama3-8b-8192";
            chat_messages := [ system_message; {| role := "user"; content := llm_prompt |} ];
            chat_temperature := 3 # 10;
            chat_max_tokens := 1024 |};
     llm_response ← first_message_content chat_completion;
     _parse_test_scenarios llm_response)
    (fun e =>
       _ ← print ("Error generating test scenarios: " +:+ str_exn e);
       mret []).

Definition steps_error : value :=
  VDict [ ("Test Steps", VStr "Error generating steps");
          ("Expected Result", VStr "Error generating expected result") ].

Definition generate_test_steps (self : t) (test_scenario test_description : string)
    : Py.M value :=
  let search_query := test_scenario +:+ " " +:+ test_description in
  contexts ← semantic_search self search_query 5;
  context_str ← str_join (nl +:+ nl) contexts;
  let llm_prompt :=
    String.concat nl
      [ "";
        "        You are a professional Flexcube test engineer creating detailed test steps.";
        "";
        "        TEST SCENARIO: " +:+ test_scenario;
        "        TEST DESCRIPTION: " +:+ test_description;
        "";
        "        RETRIEVED FLEXCUBE CONTEXT: ";
        "        " +:+ context_str;
        "";
        "        INSTRUCTIONS:";
        "        1. Based on the test scenario, description, and retrieved Flexcube context, generate detailed test steps";
        "        2. Create precise expected results that validate the test scenario";
        "        3. Follow this exact output format:";
        "";
        "        Test Steps:";
        "        1. [First specific step with exact Flexcube navigation/action]";
        "        2. [Second specific step]";
        "        3. [Continue with additional steps as needed]";
        "";
        "        Expected Result: [Precise expected outcome]";
        "";
        "        GENERATE ONLY THE TEST STEPS AND EXPECTED RESULT. BE SPECIFIC TO FLEXCUBE NAVIGATION, SCREENS, AND FIELDS.";
        "        " ] in
  try_except
    (chat_completion ←
       chat_create groq
         {| chat_model := "llama3-8b-8192";
            chat_messages := [ system_message; {| role := "user"; content := llm_prompt |} ];
            chat_temperature := 3 # 10;
            chat_max_tokens := 1024 |};
     llm_response ← first_message_content chat_completion;
     _parse_steps_and_result llm_response)
    (fun e =>
       _ ← print ("Error generating test steps: " +:+ str_exn e);
       mret steps_error).

End Generation.

End FlexcubeTestCaseGenerator.

(** ** [FunctionDocumentGenerator.py] *)

Module FunctionDocumentGenerator.

Record t : Type := {
  collection_names : list string;
  qdrant_client : QdrantClient;
  model : SentenceTransformer
}.

Definition generate_embeddings (self : t) (query : string) : Py.M (list Q) :=
  let embeddings := encode (model self) query in
  if Z.of_nat (length embeddings) <? 896
  then np_pad embeddings (896 - Z.of_nat (length embeddings))
  else mret (list_slice_to 896 embeddings).

Definition search_vector_db (self : t) (query : string) (top_k : Z)
    : Py.M (list ScoredPoint) :=
  query_embedding ← generate_embeddings self query;
  for_loop (collection_names self)
    (fun results collection =>
       try_except
         (search_result ←
            client_search (qdrant_client self) collection query_embedding top_k;
          mret (results ++ search_result))
         (fun e =>
            _ ← print ("Error searching collection " +:+ collection +:+ ": "
                       +:+ str_exn e);
            mret results))
    [].

Section Generation.

Variable groq : ChatRequest -> res ChatCompletion.

Definition document_prompt (function_requirement context : string) : string :=
  String.concat nl
    [ "";
      "        Generate a comprehensive function specification document based on the following requirements and context:";
      "";
      "        Function Requirement: " +:+ function_requirement;
      "        Context from User Guide: " +:+ context;
      "";
      "        Create a detailed document with the following structure:";
      "        1. *INTRODUCTION*  ";
      "        ";
      "           Brief overview of the document purpose and scope.";
      "        ";
      "        2. *REQUIREMENT OVERVIEW*  ";
      "           Clear statement of the business requirements and objectives.";
      "        ";
      "        3. *CURRENT FUNCTIONALITY*  ";
      "           Description of how the system currently handles these requirements.";
      "        ";
      "        4. *PROPOSED FUNCTIONAL APPROACH*";
      "           Detailed explanation of the proposed solution and implementation.";
      "        ";
      "        The document should be technical, precise, and provide clear insights for implementation.";
      "        Focus on these four main sections as they constitute the core content.";
      "        ";
      "        Note: Additional sections like Validations, Interface Impact, Migration Impact, etc. will be included in the final document template but do not need to be generated.";
      "        " ].

Definition generate_document_with_llama (self : t) (function_requirement context : string)
    : Py.M string :=
  let prompt := document_prompt function_requirement context in
  response ←
    chat_create groq
      {| chat_model := "llama3-8b-8192";
         chat_messages :=
           [ {| role := "system";
                content := "You are a technical documentation specialist." |};
             {| role := "user"; content := prompt |} ];
         chat_max_tokens := 2000;
         chat_temperature := 3 # 10 |};
  first_message_content response.

(** [result.payload and 'text' in result.payload]: an empty mapping is
    false. *)
Definition has_text (result : ScoredPoint) : bool :=
  match payload result with
  | [] => false
  | _ :: _ => bool_decide (is_Some (dict_lookup "text" (payload result)))
  end.

Definition generate_function_document (self : t) (function_requirement : string)
    : Py.M string :=
  vector_search_results ← search_vector_db self function_requirement 5;
  context ←
    str_join nl
      (map (fun result => dict_get "text" (VStr "") (payload result))
           (List.filter has_text vector_search_results));
  generated_document ← generate_document_with_llama self function_requirement context;
  mret generated_document.

End Generation.

End FunctionDocumentGenerator.

(** ** Vocabulary of the statements *)

Module Spec.

Import CodeGenerator.

(** A required header that does not occur in the text. *)
Definition is_missing (result section : string) : bool :=
  negb (str_contains section result).

Definition missing_sections (result : string) : list string :=
  List.filter (is_missing result) required_sections.

(** The line printed for a missing header. *)
Definition warning (section : string) : event :=
  Printed ("WARNING: Section '" +:+ section +:+ "' missing from result.").

(** The sublist of [l] picked by a list of flags, and all lists of [n]
    flags: every result of filtering the seven headers is one of
    [select mask required_sections]. *)
Fixpoint select (mask : list bool) (l : list string) : list string :=
  match mask, l with
  | b :: mask', x :: l' => if b then x :: select mask' l' else select mask' l'
  | _, _ => []
  end.

Fixpoint all_masks (n : nat) : list (list bool) :=
  match n with
  | O => [[]]
  | S n' => flat_map (fun m => [true :: m; false :: m]) (all_masks n')
  end.

(** For every set of missing headers, the banner contains a required
    header exactly when that header is in the set. *)
Definition banner_check : bool :=
  forallb
    (fun mask =>
       let missing := select mask required_sections in
       forallb
         (fun h =>
            Bool.eqb (str_contains h (missing_banner missing))
                     (existsb (String.eqb h) missing))
         required_sections)
    (all_masks 7).

(** The request [chat] sends for a list of messages. *)
Definition chat_request (self : LiteLLMGroqWrapper) (messages : list Message) : Request :=
  {| req_model := llm_model self;
     req_messages := messages;
     req_api_key := llm_api_key self;
     req_max_tokens := 2048;
     req_temperature := 13 # 10 |}.

Definition is_completion (ev : event) : bool :=
  match ev with Completion _ _ => true | _ => false end.

Definition is_search (ev : event) : bool :=
  match ev with Search _ _ => true | _ => false end.

(** [key in d and d[key]]: the field is present with a true value; for a
    string value, a non-empty string. *)
Definition non_empty_field (key : string) (d : list (string * value)) : bool :=
  match dict_lookup key d with
  | Some v => truthy v
  | None => false
  end.

Definition is_kickoff (ev : event) : bool :=
  match ev with Kickoff _ _ => true | _ => false end.


(** What resizing a native embedding to a target dimension has to give. *)
Definition resized (native : list Q) (target_dim : Z) (r : list Q) : Prop :=
  Z.of_nat (length r) = target_dim /\
  (Z.of_nat (length native) < target_dim ->
     r = native ++ repeat 0%Q (Z.to_nat (target_dim - Z.of_nat (length native)))) /\
  (target_dim < Z.of_nat (length native) ->
     r = firstn (Z.to_nat target_dim) native) /\
  (Z.of_nat (length native) = target_dim -> r = native).

(** [x] may stand before [y] in a descending arrangement. *)
Definition descending {A : Type} (key : A -> Q) (x y : A) : Prop :=
  (key y <= key x)%Q.

(** The elements whose key equals [q], in their order in the list. *)
Definition with_key {A : Type} (key : A -> Q) (q : Q) (l : list A) : list A :=
  List.filter (fun a => Qeq_bool (key a) q) l.

(** The text [semantic_search] returns for a match. *)
Definition text_of (result : ScoredPoint) : value :=
  dict_get "text" (VStr "") (payload result).

(** What a collection contributes to [search_vector_db]. *)
Definition found_or_skipped (client : QdrantClient) (v : list Q) (top_k : Z)
    (collection : string) : list ScoredPoint :=
  match search client collection v top_k with
  | Ok results => results
  | Raise _ => []
  end.

(** The events of one collection in [search_vector_db]. *)
Definition search_events (client : QdrantClient) (v : list Q) (top_k : Z)
    (collection : string) : list event :=
  match search client collection v top_k with
  | Ok _ => [Search collection top_k]
  | Raise e =>
      [Search collection top_k;
       Printed ("Error searching collection " +:+ collection +:+ ": " +:+ str_exn e)]
  end.

(** The kick-off event of a task. *)
Definition kickoff_event (task : Task) : event :=
  Kickoff (agent_role (agent task)) (description task).

(** What [_format_final_result] returns for a text. *)
Definition validated (result : string) : string :=
  match missing_sections result with
  | [] => result
  | _ :: _ => missing_banner (missing_sections result) +:+ result
  end.

Definition run_crew_failure (e : exn) : event :=
  Printed ("Error in run_crew: " +:+ str_exn e).

(** The three stages of [run_crew] by the outcomes of the kick-offs,
    from the generation task on: the events and the value returned. *)
Definition stages (crew_kickoff : Task -> res string) (task1 : Task) : Py.M string :=
  match crew_kickoff task1 with
  | Raise e => ([kickoff_event task1; run_crew_failure e], Ok run_crew_error)
  | Ok gen_result =>
      let task2 := _review_task_fn gen_result code_reviewer in
      match crew_kickoff task2 with
      | Raise e =>
          ([kickoff_event task1; Printed "Code generation completed"; Sleep 2;
            kickoff_event task2; run_crew_failure e],
           Ok run_crew_error)
      | Ok review_result =>
          let task3 := _improvement_task_fn review_result gen_result code_improver in
          match crew_kickoff task3 with
          | Raise e =>
              ([kickoff_event task1; Printed "Code generation completed"; Sleep 2;
                kickoff_event task2; Printed "Code review completed"; Sleep 2;
                kickoff_event task3; run_crew_failure e],
               Ok run_crew_error)
          | Ok final_result =>
              ([kickoff_event task1; Printed "Code generation completed"; Sleep 2;
                kickoff_event task2; Printed "Code review completed"; Sleep 2;
                kickoff_event task3; Printed "Code improvement completed"]
                 ++ map warning (missing_sections final_result),
               Ok (validated final_result))
          end
      end
  end.

(** The ceilings of the three prompts, in characters (the warning sign of
    the generation prompt counts for the six bytes of its encoding). *)
Definition generation_ceiling : nat := 2270.
Definition review_ceiling : nat := 1223.
Definition improvement_ceiling : nat := 2532.

End Spec.

(** ** Concrete inputs *)

Module Examples.

Import CodeGenerator.

(** A final text with the seven headers, and one without the last. *)
Definition text_without_import : string :=
  unlines
    [ "Intent of the Change:"; "Add an interest calculation.";
      "Affected Code or Packages:"; "PKG_INTEREST";
      "Insertion Points:"; "Package body";
      "New Code:"; "FUNCTION calc_interest RETURN NUMBER;";
      "Invocation of new programming unit in existing source:"; "calc_interest;";
      "Explanation:"; "Keeps the rate in one place." ].

Definition conformant_text : string :=
  unlines [ text_without_import; "Required Import:"; "None" ].

(** A requirement of 5000 characters, a stage output of 3000. *)
Definition requirement_5000 : string :=
  String.string_of_list_ascii (repeat "r"%char 5000).

Definition output_3000 : string :=
  String.string_of_list_ascii (repeat "o"%char 3000).

Definition point (text : string) (s : Q) : ScoredPoint :=
  {| payload := [("text", VStr text)]; score := s |}.

(** Collection A holds matches of scores 0.9, 0.95 and 0.2, collection B
    one of score 0.99. *)
Definition store : QdrantClient :=
  {| get_collections := Ok ["A"; "B"];
     search := fun collection _ _ =>
       if String.eqb collection "A"
       then Ok [point "a 0.9" (9 # 10); point "a 0.95" (95 # 100); point "a 0.2" (2 # 10)]
       else if String.eqb collection "B"
       then Ok [point "b 0.99" (99 # 100)]
       else Raise (Exception "collection not found") |}.

(** The same store when the search of collection A times out. *)
Definition store_a_down : QdrantClient :=
  {| get_collections := Ok ["A"; "B"];
     search := fun collection _ _ =>
       if String.eqb collection "B"
       then Ok [point "b 0.99" (99 # 100)]
       else Raise (Exception "timed out") |}.

(** A store that fails every search. *)
Definition store_down : QdrantClient :=
  {| get_collections := Ok ["A"; "B"];
     search := fun _ _ _ => Raise (Exception "timed out") |}.

(** An embedding model of native dimension 384, and one of 900. *)
Definition minilm : SentenceTransformer := {| encode := fun _ => repeat (1 # 2) 384 |}.
Definition wide : SentenceTransformer := {| encode := fun _ => repeat (1 # 2) 900 |}.

Definition flexcube (client : QdrantClient) : FlexcubeTestCaseGenerator.t :=
  FlexcubeTestCaseGenerator.init minilm client ["A"; "B"].

Definition docgen (m : SentenceTransformer) (client : QdrantClient)
    : FunctionDocumentGenerator.t :=
  {| FunctionDocumentGenerator.collection_names := ["A"; "B"];
     FunctionDocumentGenerator.qdrant_client := client;
     FunctionDocumentGenerator.model := m |}.

(** A code generator whose embedding model failed to load, one whose
    collections are not in the store, and an outside world that is down. *)
Definition wrapper : LiteLLMGroqWrapper :=
  {| llm_model := "groq/llama-3.3-70b-versatile"; llm_api_key := None |}.

Definition generator_without_model : CodeGenerator.t :=
  {| qdrant_url := "http://qdrant"; qdrant_api_key := "key"; groq_api_key := None;
     collections := ["Sql_Database"; "DDL_Database"; "sql-embeddings_main2"];
     llm := wrapper; model := None |}.

Definition generator : CodeGenerator.t :=
  {| qdrant_url := "http://qdrant"; qdrant_api_key := "key"; groq_api_key := None;
     collections := ["Sql_Database"; "DDL_Database"; "sql-embeddings_main2"];
     llm := wrapper; model := Some minilm |}.

Definition connect_store (url api_key : string) : res QdrantClient := Ok store.
Definition no_set_repr (names : gset string) : string := "{...}".
Definition no_repr (v : value) : string := "<object>".
Definition crew_down (task : Task) : res string := Raise (Exception "backend unreachable").

Definition user_message : list Message := [ {| role := "user"; content := "hello" |} ].

Definition rate_limited (rq : Request) : res Response := Raise (RateLimitError "429").
Definition unreachable (rq : Request) : res Response := Raise (Exception "connection refused").
Definition answering (rq : Request) : res Response :=
  Ok {| choices := [ {| message := {| role := "assistant"; content := "BEGIN NULL; END;" |} |} ] |}.

(** A code generator whose second requested collection is the first that
    the store has. *)
Definition generator_b : CodeGenerator.t :=
  {| qdrant_url := "http://qdrant"; qdrant_api_key := "key"; groq_api_key := None;
     collections := ["Sql_Database"; "B"; "A"];
     llm := wrapper; model := Some minilm |}.


Definition crew_review_down (task : Task) : res string :=
  if String.eqb (agent_role (agent task)) "Code Generator" then Ok "generated"
  else Raise (Exception "backend unreachable").

Definition crew_improve_down (task : Task) : res string :=
  if String.eqb (agent_role (agent task)) "Code Generator" then Ok "generated"
  else if String.eqb (agent_role (agent task)) "Code Reviewer" then Ok "reviewed"
  else Raise (Exception "backend unreachable").

(** A Groq backend that is down, one that answers, and two parsers. *)
Definition groq_down (rq : ChatRequest) : res ChatCompletion :=
  Raise (Exception "connection refused").

Definition groq_answer (rq : ChatRequest) : res ChatCompletion :=
  Ok {| completion_choices := [ {| role := "assistant"; content := "Test Steps: 1. Open" |} ] |}.

Definition parse_steps (text : string) : Py.M value :=
  mret (VDict [ ("Test Steps", VStr text); ("Expected Result", VStr "") ]).

Definition parse_scenarios_fail (text : string) : Py.M (list value) :=
  raise (Exception "expected string or bytes-like object").

End Examples.

(* ===================================================================== *)
(** * Part II: properties                                                *)
(* ===================================================================== *)

(** ** Running a computation *)

Ltac run_py :=
  unfold mbind, M_bind, Py.bind, try_except, mret, M_ret, Py.ret, lift, print,
    call, raise, client_search, outcome, trace.

(** ** Strings *)

Section StringFacts.

Implicit Types a b s sub : string.

#[local] Arguments String.append !s1 s2 / : simpl nomatch.

Lemma str_app_assoc a b s : (a +:+ b) +:+ s = a +:+ (b +:+ s).
Proof. induction a as [|c a IH]; simpl; congruence. Qed.

Lemma str_app_nil_r a : a +:+ "" = a.
Proof. induction a as [|c a IH]; simpl; congruence. Qed.

Lemma str_length_app a b :
  String.length (a +:+ b) = (String.length a + String.length b)%nat.
Proof. induction a as [|c a IH]; simpl; congruence. Qed.

(** [s[:n]] of [a + b] when [n = len(a)]. *)
Lemma slice_to_app a b : slice_to (String.length a) (a +:+ b) = a.
Proof.
  unfold slice_to. induction a as [|c a IH]; simpl.
  - now destruct b.
  - congruence.
Qed.

Lemma slice_to_length n s :
  (n <= String.length s)%nat -> String.length (slice_to n s) = n.
Proof.
  unfold slice_to. revert s. induction n as [|n IH]; intros [|c s]; simpl; intros H;
    try reflexivity; try lia.
  rewrite IH; [reflexivity | lia].
Qed.

Lemma prefix_spec sub s :
  String.prefix sub s = true <-> exists b, s = sub +:+ b.
Proof.
  revert s. induction sub as [|c sub IH]; intros s; simpl.
  - split; [intros _; now exists s | now destruct s].
  - destruct s as [|c' s]; simpl.
    + split; [discriminate | intros [b Hb]; discriminate].
    + destruct (Ascii.ascii_dec c c') as [->|Hne].
      * rewrite IH. split; intros [b Hb]; exists b; congruence.
      * split; [discriminate | intros [b Hb]; congruence].
Qed.

(** [str_contains] decides the substring relation. *)
Lemma str_contains_spec sub s :
  str_contains sub s = true <-> exists a b, s = a +:+ sub +:+ b.
Proof.
  induction s as [|c s IH].
  - change (str_contains sub "") with (String.prefix sub "" || false).
    rewrite orb_false_r, prefix_spec. split.
    + intros [b Hb]. now exists "", b.
    + intros [[|c a] [b Hb]]; [now exists b | discriminate].
  - change (str_contains sub (String c s))
      with (String.prefix sub (String c s) || str_contains sub s).
    rewrite orb_true_iff, prefix_spec, IH. split.
    + intros [[b Hb] | (a & b & Hab)].
      * now exists "", b.
      * exists (String c a), b. simpl. now rewrite Hab.
    + intros ([|c' a] & b & Hab); simpl in Hab.
      * left. now exists b.
      * right. exists a, b. congruence.
Qed.

Lemma str_contains_refl s : str_contains s s = true.
Proof. apply str_contains_spec. exists "", "". simpl. now rewrite str_app_nil_r. Qed.

Lemma str_contains_app_l sub a b :
  str_contains sub a = true -> str_contains sub (a +:+ b) = true.
Proof.
  rewrite !str_contains_spec. intros (x & y & ->).
  exists x, (y +:+ b). now rewrite !str_app_assoc.
Qed.

Lemma str_contains_app_r sub a b :
  str_contains sub b = true -> str_contains sub (a +:+ b) = true.
Proof.
  rewrite !str_contains_spec. intros (x & y & ->).
  exists (a +:+ x), y. now rewrite !str_app_assoc.
Qed.

(** Every element of a joined list occurs in the result. *)
Lemma str_contains_concat sep h (l : list string) :
  In h l -> str_contains h (String.concat sep l) = true.
Proof.
  induction l as [|x l IH]; [intros [] |].
  intros [-> | Hin].
  - destruct l as [|y l]; simpl.
    + apply str_contains_refl.
    + apply str_contains_app_l, str_contains_refl.
  - destruct l as [|y l]; [destruct Hin |].
    change (String.concat sep (x :: y :: l))
      with (x +:+ sep +:+ String.concat sep (y :: l)).
    now apply str_contains_app_r, str_contains_app_r, IH.
Qed.

End StringFacts.

(** ** The monad *)

Section MonadLaws.

Context {A B C : Type}.

Lemma bind_ret_l (a : A) (k : A -> Py.M B) : (mret a ≫= k) = k a.
Proof. unfold mbind, M_bind, mret, M_ret, Py.bind, Py.ret. now destruct (k a). Qed.

Lemma bind_assoc (m : Py.M A) (f : A -> Py.M B) (g : B -> Py.M C) :
  ((m ≫= f) ≫= g) = (m ≫= fun x => f x ≫= g).
Proof.
  unfold mbind, M_bind, Py.bind. destruct m as [t [a|e]]; [|reflexivity].
  destruct (f a) as [t' [b|e']]; [|reflexivity].
  destruct (g b) as [t'' r]. now rewrite app_assoc.
Qed.

Lemma bind_print line (k : unit -> Py.M B) :
  (print line ≫= k) = (Printed line :: (k tt).1, (k tt).2).
Proof. unfold mbind, M_bind, Py.bind, print. now destruct (k tt). Qed.

Lemma bind_ok t (a : A) (k : A -> Py.M B) :
  ((t, Ok a) ≫= k) = (t ++ (k a).1, (k a).2).
Proof. unfold mbind, M_bind, Py.bind. now destruct (k a). Qed.

Lemma try_except_ok t (a : A) (h : exn -> Py.M A) : try_except (t, Ok a) h = (t, Ok a).
Proof. reflexivity. Qed.

Lemma try_except_bind_print line (k : unit -> Py.M B) h :
  try_except (print line ≫= k) h
  = (Printed line :: (try_except (k tt) h).1, (try_except (k tt) h).2).
Proof.
  unfold mbind, M_bind, Py.bind, print, try_except.
  destruct (k tt) as [t [b|e]]; [reflexivity |]. now destruct (h e).
Qed.

Lemma try_except_bind_call ev (r : res A) (k : A -> Py.M B) h :
  try_except (call ev r ≫= k) h
  = match r with
    | Ok a => (ev :: (try_except (k a) h).1, (try_except (k a) h).2)
    | Raise e => (ev :: (h e).1, (h e).2)
    end.
Proof.
  unfold mbind, M_bind, Py.bind, call, try_except. destruct r as [a|e].
  - destruct (k a) as [t [b|e]]; [reflexivity |]. now destruct (h e).
  - now destruct (h e).
Qed.

End MonadLaws.

(** ** The output validator ([validate] is [_format_final_result]) *)

Section Validator.

Import CodeGenerator Spec.

(** The loop collects the missing headers in order and prints one warning
    for each. *)
Lemma missing_loop result l acc :
  for_loop l
    (fun missing section =>
       if negb (str_contains section result)
       then _ ← print ("WARNING: Section '" +:+ section +:+ "' missing from result.");
            mret (missing ++ [section])
       else mret missing) acc
  = (map warning (List.filter (is_missing result) l),
     Ok (acc ++ List.filter (is_missing result) l)).
Proof.
  revert acc. induction l as [|x l IH]; intros acc.
  - simpl. now rewrite app_nil_r.
  - cbn [for_loop List.filter].
    change (is_missing result x) with (negb (str_contains x result)).
    destruct (negb (str_contains x result)).
    + rewrite bind_assoc, bind_print, bind_ret_l, IH. cbn. now rewrite <- app_assoc.
    + now rewrite bind_ret_l, IH.
Qed.

Lemma format_final_result_eq result :
  _format_final_result result =
  (map warning (missing_sections result),
   Ok (match missing_sections result with
       | [] => result
       | _ :: _ => missing_banner (missing_sections result) +:+ result
       end)).
Proof.
  unfold _format_final_result. rewrite missing_loop. fold (missing_sections result).
  generalize (missing_sections result) as m. intros m.
  unfold mbind, M_bind, Py.bind, mret, M_ret, Py.ret.
  destruct m; simpl; rewrite ?app_nil_r; reflexivity.
Qed.

Lemma missing_sections_In result h :
  In h (missing_sections result) <->
  In h required_sections /\ str_contains h result = false.
Proof.
  unfold missing_sections. rewrite filter_In. unfold is_missing.
  now rewrite negb_true_iff.
Qed.

Lemma missing_sections_nil result :
  missing_sections result = [] <->
  forall h, In h required_sections -> str_contains h result = true.
Proof.
  split.
  - intros Hnil h Hin. destruct (str_contains h result) eqn:E; [reflexivity |].
    assert (In h (missing_sections result)) as Hm by now apply missing_sections_In.
    rewrite Hnil in Hm. destruct Hm.
  - intros Hall. destruct (missing_sections result) as [|h l] eqn:E; [reflexivity |].
    assert (In h (missing_sections result)) as Hm by (rewrite E; now left).
    apply missing_sections_In in Hm as [Hin Hf]. rewrite (Hall h Hin) in Hf.
    discriminate.
Qed.

Lemma filter_select f l : List.filter f l = select (map f l) l.
Proof. induction l as [|x l IH]; simpl; [reflexivity | now rewrite IH]. Qed.

Lemma all_masks_complete (m : list bool) : In m (all_masks (length m)).
Proof.
  induction m as [|b m IH]; simpl; [now left |].
  apply in_flat_map. exists m. split; [exact IH |]. destruct b; simpl; auto.
Qed.

Lemma banner_check_ok : banner_check = true.
Proof. vm_compute. reflexivity. Qed.

(** The banner names exactly the missing headers. *)
Lemma banner_names_exactly result h :
  In h required_sections ->
  str_contains h (missing_banner (missing_sections result)) = true <->
  In h (missing_sections result).
Proof.
  intros Hin. unfold missing_sections. rewrite filter_select.
  set (mask := map (is_missing result) required_sections).
  assert (In mask (all_masks 7)) as Hmask.
  { change 7%nat with (length mask). apply all_masks_complete. }
  pose proof banner_check_ok as Hc. unfold banner_check in Hc.
  rewrite forallb_forall in Hc. specialize (Hc mask Hmask). cbv zeta in Hc.
  rewrite forallb_forall in Hc. specialize (Hc h Hin).
  apply Bool.eqb_prop in Hc. rewrite Hc, existsb_exists. split.
  - intros (x & Hx & Heq). apply String.eqb_eq in Heq. now subst.
  - intros Hh. exists h. split; [exact Hh | apply String.eqb_refl].
Qed.

(** A validated text passes validation: the banner supplies the headers
    that were missing, the text the others. *)
Lemma format_final_result_fixpoint x out :
  outcome (_format_final_result x) = Ok out ->
  _format_final_result out = mret out.
Proof.
  rewrite format_final_result_eq. unfold outcome. cbn [snd]. intros [= <-].
  assert (missing_sections
            (match missing_sections x with
             | [] => x
             | _ :: _ => missing_banner (missing_sections x) +:+ x
             end) = []) as Hnil.
  { apply missing_sections_nil. intros h Hin.
    destruct (missing_sections x) as [|m l] eqn:E.
    - now apply (proj1 (missing_sections_nil x) E).
    - rewrite <- E. destruct (str_contains h x) eqn:Hhx.
      + now apply str_contains_app_r.
      + apply str_contains_app_l. unfold missing_banner.
        apply str_contains_app_r, str_contains_app_l, str_contains_concat.
        now apply missing_sections_In. }
  rewrite format_final_result_eq, Hnil. reflexivity.
Qed.

Lemma format_final_result_twice x :
  (_format_final_result x ≫= _format_final_result) = _format_final_result x.
Proof.
  destruct (_format_final_result x) as [t [out|e]] eqn:E.
  - assert (outcome (_format_final_result x) = Ok out) as Ho by now rewrite E.
    apply format_final_result_fixpoint in Ho.
    unfold mbind, M_bind, Py.bind. rewrite Ho. cbn. now rewrite app_nil_r.
  - reflexivity.
Qed.

(** C3. A text in which at least one of the seven required headers does
    not occur is returned behind an error banner: the call does not raise,
    the banner lists the missing headers, it contains a required header
    exactly when that header is missing, and the original text follows the
    banner verbatim. *)
Theorem format_final_result_reports_missing (result : string) :
  (exists h, In h required_sections /\ str_contains h result = false) ->
  exists missing : list string,
    missing <> [] /\
    (forall h, In h missing <->
               In h required_sections /\ str_contains h result = false) /\
    outcome (_format_final_result result)
      = Ok (missing_banner missing +:+ result) /\
    missing_banner missing
      = "/* Error: The following sections are missing from the generated result: "
        +:+ String.concat ", " missing +:+ ". Please retry. */" +:+ nl +:+ nl /\
    (forall h, In h required_sections ->
               str_contains h (missing_banner missing) = true <-> In h missing) /\
    str_contains result (missing_banner missing +:+ result) = true.
Proof.
  intros (h0 & Hin0 & Hmiss0). exists (missing_sections result).
  assert (In h0 (missing_sections result)) as Hm by now apply missing_sections_In.
  split; [intros Hnil; rewrite Hnil in Hm; destruct Hm |].
  split; [intros h; apply missing_sections_In |].
  split.
  { rewrite format_final_result_eq. unfold outcome. cbn [snd].
    destruct (missing_sections result); [destruct Hm | reflexivity]. }
  split; [reflexivity |].
  split; [intros h Hh; now apply banner_names_exactly |].
  apply str_contains_app_r, str_contains_refl.
Qed.

(** C4. A text that contains all seven required headers is returned
    unchanged (and nothing is printed); validating it twice gives the same
    as validating it once. *)
Theorem format_final_result_conformant (result : string) :
  (forall h, In h required_sections -> str_contains h result = true) ->
  _format_final_result result = mret result /\
  (_format_final_result result ≫= _format_final_result)
    = _format_final_result result.
Proof.
  intros Hall. apply missing_sections_nil in Hall. split.
  - rewrite format_final_result_eq, Hall. reflexivity.
  - apply format_final_result_twice.
Qed.

(** C10. Validation is idempotent on every text: the outcome of a first
    validation passes a second one unchanged and silently, so validating
    twice is the same computation as validating once. *)
Theorem format_final_result_idempotent (x : string) :
  (exists out, outcome (_format_final_result x) = Ok out /\
               _format_final_result out = mret out) /\
  (_format_final_result x ≫= _format_final_result) = _format_final_result x.
Proof.
  split; [| apply format_final_result_twice].
  rewrite format_final_result_eq. unfold outcome. cbn [snd].
  eexists. split; [reflexivity |].
  apply (format_final_result_fixpoint x). rewrite format_final_result_eq. reflexivity.
Qed.

End Validator.

(** ** The stage executor ([chat]) *)

Section StageExecutor.

Import CodeGenerator.

Import Spec.

Variable backend : Request -> res Response.
Variable self : LiteLLMGroqWrapper.
Variable messages : list Message.

Lemma chat_eq :
  chat backend self messages =
  match backend (chat_request self messages) with
  | Ok response =>
      match choices response with
      | c :: _ => ([Completion (llm_model self) messages], Ok (content (message c)))
      | [] => ([Completion (llm_model self) messages;
                Printed "Error in LLM completion: list index out of range"],
               Ok degraded_message)
      end
  | Raise (RateLimitError m) =>
      ([Completion (llm_model self) messages; Printed ("Rate limit error: " +:+ m)],
       Ok rate_limit_message)
  | Raise (Exception m) =>
      ([Completion (llm_model self) messages;
        Printed ("Error in LLM completion: " +:+ m)],
       Ok degraded_message)
  end.
Proof.
  unfold chat, completion, first_content. fold (chat_request self messages).
  run_py. cbn.
  destruct (backend (chat_request self messages)) as [response | [m | m]];
    cbn; try reflexivity.
  destruct (choices response); reflexivity.
Qed.

(** C9. [chat] never raises and sends exactly one request to the backend.
    A rate-limit failure gives the fixed rate-limit message, any other
    failure (also a response without choices) the fixed degraded-mode
    message, and a response with a first choice gives the text of that
    choice. *)
Theorem chat_never_raises :
  (exists text, outcome (chat backend self messages) = Ok text) /\
  List.filter is_completion (trace (chat backend self messages))
    = [Completion (llm_model self) messages] /\
  (forall m, backend (chat_request self messages) = Raise (RateLimitError m) ->
             outcome (chat backend self messages) = Ok rate_limit_message) /\
  (forall m, backend (chat_request self messages) = Raise (Exception m) ->
             outcome (chat backend self messages) = Ok degraded_message) /\
  (forall response, backend (chat_request self messages) = Ok response ->
                    choices response = [] ->
                    outcome (chat backend self messages) = Ok degraded_message) /\
  (forall response c rest,
      backend (chat_request self messages) = Ok response ->
      choices response = c :: rest ->
      outcome (chat backend self messages) = Ok (content (message c))).
Proof.
  rewrite chat_eq.
  destruct (backend (chat_request self messages)) as [response | [m | m]].
  - destruct (choices response) as [|c rest] eqn:Hc; cbn;
      (split; [eexists; reflexivity |]); (split; [reflexivity |]);
      repeat split; intros; try discriminate; try reflexivity; congruence.
  - cbn. split; [eexists; reflexivity |]. split; [reflexivity |].
    repeat split; intros; try discriminate; reflexivity.
  - cbn. split; [eexists; reflexivity |]. split; [reflexivity |].
    repeat split; intros; try discriminate; reflexivity.
Qed.

End StageExecutor.

(** ** Retrieval for the pipeline ([search_relevant_code]) *)

Section CodeRetrieval.

Import CodeGenerator Spec.

Variable connect : string -> string -> res QdrantClient.
Variable repr_set : gset string -> string.
Variable repr : value -> string.

Lemma filter_none {A} (f : A -> bool) (l : list A) :
  (forall x, In x l -> f x = false) -> List.filter f l = [].
Proof.
  induction l as [|x l IH]; intros H; [reflexivity |]. simpl.
  rewrite (H x) by now left. apply IH. intros y Hy. apply H. now right.
Qed.

(** Whatever the store does, the search returns a list; it starts no
    pipeline stage. *)
Lemma search_relevant_code_returns self query n_results :
  exists t payloads,
    search_relevant_code connect repr_set self query n_results = (t, Ok payloads)
    /\ List.filter is_kickoff t = [].
Proof.
  unfold search_relevant_code. destruct (model self) as [m|]; run_py; cbn.
  - destruct (connect _ _) as [client|e]; cbn; [| eauto].
    destruct (get_collections client) as [names|e]; cbn; [| eauto].
    destruct (List.filter _ _) as [|first rest]; cbn; [eauto |].
    destruct (search client first _ _) as [results|e]; cbn; eauto.
  - eauto.
Qed.

(** C7. The search answers with the empty list, without raising and
    without one similarity search, when the embedding model is unusable
    and when no requested collection exists in the store. *)
Theorem search_relevant_code_short_circuits self query n_results :
  (model self = None \/
   forall client names,
     connect (qdrant_url self) (qdrant_api_key self) = Ok client ->
     get_collections client = Ok names ->
     forall col, In col (collections self) -> ~ In col names) ->
  outcome (search_relevant_code connect repr_set self query n_results) = Ok [] /\
  List.filter is_search
    (trace (search_relevant_code connect repr_set self query n_results)) = [].
Proof.
  intros H. unfold search_relevant_code.
  destruct (model self) as [m|] eqn:Hm; run_py; cbn; [| now split].
  destruct H as [H | H]; [discriminate |].
  destruct (connect _ _) as [client|e]; cbn; [| now split].
  destruct (get_collections client) as [names|e] eqn:Hn; cbn; [| now split].
  rewrite filter_none; [now split |].
  intros col Hcol. apply bool_decide_eq_false.
  rewrite elem_of_list_to_set, list_elem_of_In. now apply (H client names).
Qed.

(** ** The payload extractor *)

Lemma present_and_true_eq key d :
  present_and_true key d = mret (non_empty_field key d).
Proof.
  unfold present_and_true, non_empty_field, dict_item.
  destruct (dict_lookup key d) as [v|]; reflexivity.
Qed.

Lemma extract_content_dict_eq d :
  _extract_content_from_payload repr (VDict d) =
  mret (if non_empty_field "content" d
        then match dict_lookup "content" d with
             | Some c => str repr c
             | None => ""
             end
        else if non_empty_field "text" d
             then match dict_lookup "text" d with
                  | Some t => str repr t
                  | None => ""
                  end
             else str repr (VDict d)).
Proof.
  unfold _extract_content_from_payload.
  rewrite !present_and_true_eq, bind_ret_l.
  unfold non_empty_field, dict_item.
  destruct (dict_lookup "content" d) as [c|]; [destruct (truthy c) |];
    rewrite ?bind_ret_l; try reflexivity;
    (destruct (dict_lookup "text" d) as [t|]; [destruct (truthy t) |];
     rewrite ?bind_ret_l; reflexivity).
Qed.

Lemma extract_content_returns payload :
  exists text : string, _extract_content_from_payload repr payload = mret text.
Proof.
  destruct payload; try (eexists; reflexivity).
  rewrite extract_content_dict_eq. eexists; reflexivity.
Qed.

(** For a string, true means non-empty. *)
Lemma truthy_str s : truthy (VStr s) = true <-> s <> "".
Proof.
  simpl. rewrite negb_true_iff. split.
  - intros H ->. discriminate.
  - intros H. now apply String.eqb_neq.
Qed.

(** C8. The text of a payload: the stringified [content] field of a
    mapping when that field is present and non-empty, else its stringified
    [text] field when that one is present and non-empty, else the
    stringified mapping; a payload that is not a mapping is stringified
    directly. The call never raises and always yields a string. *)
Theorem extract_content_priority (payload : value) :
  (forall d c, payload = VDict d ->
     dict_lookup "content" d = Some c -> truthy c = true ->
     _extract_content_from_payload repr payload = mret (str repr c)) /\
  (forall d t, payload = VDict d ->
     non_empty_field "content" d = false ->
     dict_lookup "text" d = Some t -> truthy t = true ->
     _extract_content_from_payload repr payload = mret (str repr t)) /\
  (forall d, payload = VDict d ->
     non_empty_field "content" d = false ->
     non_empty_field "text" d = false ->
     _extract_content_from_payload repr payload = mret (str repr payload)) /\
  ((forall d, payload <> VDict d) ->
     _extract_content_from_payload repr payload = mret (str repr payload)) /\
  (exists text : string, _extract_content_from_payload repr payload = mret text).
Proof.
  pose proof extract_content_dict_eq as Hd.
  split; [| split; [| split; [| split]]].
  - intros d c -> Hc Ht. rewrite Hd. unfold non_empty_field. now rewrite Hc, Ht.
  - intros d t -> Hc Ht Htt. rewrite Hd, Hc. unfold non_empty_field.
    now rewrite Ht, Htt.
  - intros d -> Hc Ht. now rewrite Hd, Hc, Ht.
  - intros Hnd. destruct payload; try reflexivity. now destruct (Hnd d).
  - apply extract_content_returns.
Qed.

End CodeRetrieval.

(** ** Truncation at the producer boundary *)

Section Truncation.

Import CodeGenerator Spec.

Lemma clip_le n s : (String.length s <= n)%nat -> clip n s = s.
Proof.
  intros H. unfold clip. destruct (Nat.ltb_spec n (String.length s)); [lia | reflexivity].
Qed.

Lemma clip_gt n s :
  (n < String.length s)%nat ->
  clip n s = slice_to n s +:+ "..." /\ String.length (clip n s) = (n + 3)%nat.
Proof.
  intros H. unfold clip. destruct (Nat.ltb_spec n (String.length s)); [| lia].
  split; [reflexivity |]. rewrite str_length_app, slice_to_length by lia. reflexivity.
Qed.

Lemma slice_to_prefix n s : exists rest, s = slice_to n s +:+ rest.
Proof.
  unfold slice_to. revert s. induction n as [|n IH]; intros [|c s].
  - now exists "".
  - now exists (String c s).
  - now exists "".
  - destruct (IH s) as [rest Hr]. exists rest.
    change (String c s = String c (String.substring 0 n s +:+ rest)). congruence.
Qed.

Variable connect : string -> string -> res QdrantClient.
Variable repr_set : gset string -> string.
Variable repr : value -> string.
Variable crew_kickoff : Task -> res string.

Lemma code_gen_task_eq description related_examples agent :
  exists examples_text,
    _code_gen_task_fn repr
      [("type", VStr "PL/SQL"); ("description", VStr description)]
      related_examples agent
    = mret {| CodeGenerator.description :=
                unlines (code_gen_header ++ [description; ""; examples_text; ""]);
              expected_output :=
                "A fully filled-out, structured answer with all seven sections above.";
              CodeGenerator.agent := agent |}.
Proof.
  unfold _code_gen_task_fn. destruct related_examples as [|example rest].
  - exists "". rewrite bind_ret_l. reflexivity.
  - destruct (extract_content_returns repr example) as [text Ht].
    eexists. rewrite Ht, !bind_ret_l. reflexivity.
Qed.

Lemma run_crew_stages self code_requirements :
  exists t1 task1 t2 r,
    run_crew connect repr_set repr crew_kickoff self code_requirements
      = (Printed ("Starting code generation for: " +:+ code_requirements)
           :: t1 ++ Kickoff "Code Generator" (description task1) :: t2, r) /\
    List.filter is_kickoff t1 = [] /\
    (exists examples_text,
        description task1 =
        unlines (code_gen_header
                   ++ [clip 200 code_requirements; ""; examples_text; ""])) /\
    (forall gen_result, crew_kickoff task1 = Ok gen_result ->
       exists t3,
         t2 = Printed "Code generation completed" :: Sleep 2
              :: Kickoff "Code Reviewer"
                   (description (_review_task_fn gen_result code_reviewer))
              :: t3).
Proof.
  unfold run_crew.
  destruct (search_relevant_code_returns connect repr_set self
              ("PL/SQL " +:+ clip 200 code_requirements) 1)
    as (ts & payloads & Hs & Hk).
  destruct (code_gen_task_eq (clip 200 code_requirements) payloads code_generator)
    as (examples_text & Hg).
  cbv zeta. rewrite bind_print. cbn [fst snd]. rewrite Hs.
  rewrite bind_ok, bind_print. unfold mret, M_ret, Py.ret. cbn [fst snd].
  rewrite try_except_ok, bind_ok. cbn [fst snd].
  rewrite Hg, bind_ret_l.
  set (task1 := {| description := _ |}).
  unfold kickoff, sleep. rewrite try_except_bind_call.
  exists (ts ++ [Printed ("Found " +:+ str_nat (length payloads) +:+ " related examples")]).
  exists task1.
  destruct (crew_kickoff task1) as [gen|e] eqn:Hgen.
  - rewrite try_except_bind_print, try_except_bind_call.
    cbv iota. rewrite try_except_bind_call. cbn [fst snd].
    destruct (crew_kickoff (_review_task_fn gen code_reviewer));
      (eexists; eexists; split; [| split; [| split]];
       [ cbn [fst snd]; rewrite <- !app_assoc; reflexivity
       | rewrite List.filter_app, Hk; reflexivity
       | exists examples_text; reflexivity
       | intros g [= <-]; eexists; reflexivity ]).
  - eexists. eexists. split; [| split; [| split]].
    + cbn [fst snd]. rewrite <- !app_assoc. reflexivity.
    + rewrite List.filter_app, Hk. reflexivity.
    + exists examples_text. reflexivity.
    + intros g [=].
Qed.

(** C5, as the code has it. A text within its budget passes unchanged; a
    longer one is cut to its first [n] characters followed by the
    three-character marker, [n + 3] characters in all. [run_crew] cuts the
    requirement description at 200 before anything else uses it: the
    prompt of the generation stage, the first stage to start, embeds the
    cut text; the prompt of the review stage embeds the output of the
    generation stage cut at 1000. *)
Theorem truncation_at_producer self code_requirements :
  (forall n s, (String.length s <= n)%nat -> clip n s = s) /\
  (forall n s, (n < String.length s)%nat ->
     clip n s = slice_to n s +:+ "..." /\
     String.length (slice_to n s) = n /\
     (exists rest, s = slice_to n s +:+ rest) /\
     String.length (clip n s) = (n + 3)%nat) /\
  (exists t1 task1 t2 r,
     run_crew connect repr_set repr crew_kickoff self code_requirements
       = (Printed ("Starting code generation for: " +:+ code_requirements)
            :: t1 ++ Kickoff "Code Generator" (description task1) :: t2, r) /\
     List.filter is_kickoff t1 = [] /\
     (exists examples_text,
         description task1 =
         unlines (code_gen_header
                    ++ [clip 200 code_requirements; ""; examples_text; ""])) /\
     (forall gen_result, crew_kickoff task1 = Ok gen_result ->
        exists t3,
          t2 = Printed "Code generation completed" :: Sleep 2
               :: Kickoff "Code Reviewer"
                    (description (_review_task_fn gen_result code_reviewer))
               :: t3)) /\
  (forall code_output agent,
     description (_review_task_fn code_output agent) =
     unlines
       [ "Review the following PL/SQL code implementation:";
         "";
         clip 1000 code_output;
         "";
         "Provide detailed suggestions for improvement, identify any logic or syntax issues, and recommend enhancements.";
         "";
         "Respond with a list of issues (if any) and suggestions.";
         "" ]).
Proof.
  split; [exact clip_le |].
  split.
  { intros n s H. destruct (clip_gt n s H) as [Hc Hl].
    split; [exact Hc |]. split; [apply slice_to_length; lia |].
    split; [apply slice_to_prefix | exact Hl]. }
  split; [apply run_crew_stages | reflexivity].
Qed.

End Truncation.

(** ** Resizing an embedding *)

Section Resize.

Import Spec.

Lemma np_pad_nonneg v k :
  0 <= k -> np_pad v k = mret (v ++ repeat 0%Q (Z.to_nat k)).
Proof. intros H. unfold np_pad. destruct (Z.ltb_spec k 0); [lia | reflexivity]. Qed.

Lemma list_slice_to_nonneg {A} n (l : list A) :
  0 <= n -> list_slice_to n l = firstn (Z.to_nat n) l.
Proof. intros H. unfold list_slice_to. destruct (Z.leb_spec 0 n); [reflexivity | lia]. Qed.

Lemma resized_pad native target :
  Z.of_nat (length native) < target ->
  resized native target
    (native ++ repeat 0%Q (Z.to_nat (target - Z.of_nat (length native)))).
Proof.
  intros H. unfold resized. rewrite length_app, repeat_length.
  repeat split; intros; try lia; reflexivity.
Qed.

Lemma resized_slice native target :
  0 <= target -> target <= Z.of_nat (length native) ->
  resized native target (firstn (Z.to_nat target) native).
Proof.
  intros H0 H. unfold resized. rewrite length_firstn.
  split; [lia |]. split; [lia |]. split; [reflexivity |].
  intros Heq. apply firstn_all2. lia.
Qed.

Lemma pad_embeddings_eq (self : FlexcubeTestCaseGenerator.t) embeddings :
  FlexcubeTestCaseGenerator._pad_embeddings self embeddings =
  mret (if 0 <? FlexcubeTestCaseGenerator.target_dim self
               - FlexcubeTestCaseGenerator.original_dim self
        then embeddings
             ++ repeat 0%Q (Z.to_nat (FlexcubeTestCaseGenerator.target_dim self
                                      - FlexcubeTestCaseGenerator.original_dim self))
        else list_slice_to (FlexcubeTestCaseGenerator.target_dim self) embeddings).
Proof.
  unfold FlexcubeTestCaseGenerator._pad_embeddings.
  destruct (Z.ltb_spec 0 (FlexcubeTestCaseGenerator.target_dim self
                          - FlexcubeTestCaseGenerator.original_dim self));
    [apply np_pad_nonneg; lia | reflexivity].
Qed.

Lemma generate_embeddings_returns (self : FunctionDocumentGenerator.t) query :
  exists r, FunctionDocumentGenerator.generate_embeddings self query = mret r.
Proof.
  unfold FunctionDocumentGenerator.generate_embeddings.
  destruct (Z.ltb_spec
              (Z.of_nat (length (encode (FunctionDocumentGenerator.model self) query)))
              896).
  - rewrite np_pad_nonneg by lia. eauto.
  - eauto.
Qed.

(** C1. Resizing gives a vector of the target length: the native vector
    followed by zeros when it is shorter, its first components when it is
    longer, the vector itself when the lengths agree. For
    [_pad_embeddings], [original_dim] is the dimension of the embedding
    model; [generate_embeddings] measures the vector and resizes to 896. *)
Theorem embedding_resized :
  (forall (self : FlexcubeTestCaseGenerator.t) (text : string),
     0 <= FlexcubeTestCaseGenerator.target_dim self ->
     FlexcubeTestCaseGenerator.original_dim self
       = Z.of_nat (length (encode (FlexcubeTestCaseGenerator.embedding_model self) text)) ->
     exists r,
       FlexcubeTestCaseGenerator._pad_embeddings self
         (encode (FlexcubeTestCaseGenerator.embedding_model self) text) = mret r /\
       resized (encode (FlexcubeTestCaseGenerator.embedding_model self) text)
               (FlexcubeTestCaseGenerator.target_dim self) r) /\
  (forall (self : FunctionDocumentGenerator.t) (query : string),
     exists r,
       FunctionDocumentGenerator.generate_embeddings self query = mret r /\
       resized (encode (FunctionDocumentGenerator.model self) query) 896 r).
Proof.
  split.
  - intros self text Ht Ho. rewrite pad_embeddings_eq. eexists. split; [reflexivity |].
    rewrite Ho.
    destruct (Z.ltb_spec 0 (FlexcubeTestCaseGenerator.target_dim self
        - Z.of_nat (length (encode (FlexcubeTestCaseGenerator.embedding_model self) text)))).
    + apply resized_pad. lia.
    + rewrite list_slice_to_nonneg by lia. apply resized_slice; lia.
  - intros self query. unfold FunctionDocumentGenerator.generate_embeddings.
    destruct (Z.ltb_spec (Z.of_nat (length (encode (FunctionDocumentGenerator.model self) query))) 896).
    + rewrite np_pad_nonneg by lia. eexists. split; [reflexivity |].
      now apply resized_pad.
    + eexists. split; [reflexivity |].
      rewrite list_slice_to_nonneg by lia. apply resized_slice; lia.
Qed.

End Resize.

(** ** The stable descending sort *)

Section SortDesc.

Import Spec.

Context {A : Type} (key : A -> Q).

Implicit Types (x y : A) (l : list A).

Lemma insert_desc_perm x l : Permutation (insert_desc key x l) (x :: l).
Proof.
  induction l as [|y l IH]; simpl; [reflexivity |].
  destruct (Qle_bool (key y) (key x)); [reflexivity |].
  rewrite IH. apply perm_swap.
Qed.

Lemma sort_desc_perm l : Permutation (sort_desc key l) l.
Proof.
  induction l as [|x l IH]; simpl; [reflexivity |].
  rewrite insert_desc_perm. now constructor.
Qed.

Lemma insert_desc_sorted x l :
  StronglySorted (descending key) l ->
  StronglySorted (descending key) (insert_desc key x l).
Proof.
  induction 1 as [|y l Hl IH Hy]; simpl.
  - repeat constructor.
  - destruct (Qle_bool (key y) (key x)) eqn:E.
    + apply Qle_bool_iff in E. constructor; [now constructor |].
      constructor; [exact E |].
      eapply List.Forall_impl; [| exact Hy]. unfold descending. intros z Hz.
      now apply Qle_trans with (key y).
    + constructor; [exact IH |].
      rewrite (insert_desc_perm x l).
      constructor; [| exact Hy]. unfold descending.
      destruct (Qlt_le_dec (key x) (key y)) as [Hlt | Hle].
      * now apply Qlt_le_weak.
      * apply Qle_bool_iff in Hle. congruence.
Qed.

Lemma sort_desc_sorted l : StronglySorted (descending key) (sort_desc key l).
Proof.
  induction l as [|x l IH]; simpl; [constructor | now apply insert_desc_sorted].
Qed.

(** Inserting keeps the elements of every key in their order: the new
    element goes before the elements of its own key. *)
Lemma insert_desc_stable q x l :
  with_key key q (insert_desc key x l) = with_key key q (x :: l).
Proof.
  unfold with_key. induction l as [|y l IH]; [reflexivity |].
  cbn [insert_desc]. destruct (Qle_bool (key y) (key x)) eqn:E; [reflexivity |].
  cbn [List.filter] in *. rewrite IH.
  destruct (Qeq_bool (key x) q) eqn:Ex; [| reflexivity].
  destruct (Qeq_bool (key y) q) eqn:Ey; [| reflexivity].
  apply Qeq_bool_iff in Ex, Ey.
  assert (Qle_bool (key y) (key x) = true) as Hle.
  { apply Qle_bool_iff. rewrite Ex, Ey. apply Qle_refl. }
  congruence.
Qed.

Lemma sort_desc_stable q l :
  with_key key q (sort_desc key l) = with_key key q l.
Proof.
  induction l as [|x l IH]; [reflexivity |].
  cbn [sort_desc foldr]. rewrite insert_desc_stable.
  unfold with_key in *. cbn [List.filter]. fold (sort_desc key l). now rewrite IH.
Qed.

Lemma with_key_head x l : exists rest, with_key key (key x) (x :: l) = x :: rest.
Proof.
  unfold with_key. cbn [List.filter].
  rewrite (proj2 (Qeq_bool_iff (key x) (key x)) (Qeq_refl _)). eauto.
Qed.

Lemma with_key_In q x l : In x (with_key key q l) -> In x l.
Proof. unfold with_key. rewrite filter_In. tauto. Qed.

(** Two descending lists that agree on the elements of every key, in
    order, are the same list. *)
Lemma sorted_with_key_eq l1 l2 :
  StronglySorted (descending key) l1 ->
  StronglySorted (descending key) l2 ->
  (forall q, with_key key q l1 = with_key key q l2) ->
  l1 = l2.
Proof.
  intros H1. revert l2. induction H1 as [|x l1 Hl1 IH Hx]; intros l2 H2 Heq.
  - destruct l2 as [|y l2]; [reflexivity |].
    destruct (with_key_head y l2) as [rest Hr].
    specialize (Heq (key y)). rewrite Hr in Heq. discriminate.
  - destruct H2 as [|y l2 Hl2 Hy].
    { destruct (with_key_head x l1) as [rest Hr].
      specialize (Heq (key x)). rewrite Hr in Heq. discriminate. }
    assert (key x == key y)%Q as Hk.
    { apply Qle_antisym.
      - destruct (with_key_head x l1) as [rest Hr].
        assert (In x (y :: l2)) as Hin.
        { apply (with_key_In (key x)). rewrite <- Heq, Hr. now left. }
        destruct Hin as [<- | Hin]; [apply Qle_refl |].
        rewrite List.Forall_forall in Hy. now apply (Hy x).
      - destruct (with_key_head y l2) as [rest Hr].
        assert (In y (x :: l1)) as Hin.
        { apply (with_key_In (key y)). rewrite Heq, Hr. now left. }
        destruct Hin as [<- | Hin]; [apply Qle_refl |].
        rewrite List.Forall_forall in Hx. now apply (Hx y). }
    assert (x = y) as <-.
    { specialize (Heq (key x)). unfold with_key in Heq. cbn [List.filter] in Heq.
      rewrite (proj2 (Qeq_bool_iff (key x) (key x)) (Qeq_refl _)) in Heq.
      rewrite (proj2 (Qeq_bool_iff (key y) (key x)) (Qeq_sym _ _ Hk)) in Heq.
      congruence. }
    f_equal. apply IH; [exact Hl2 |]. intros q. specialize (Heq q).
    unfold with_key in *. cbn [List.filter] in Heq.
    destruct (Qeq_bool (key x) q); congruence.
Qed.

(** The result of the sort does not depend on the algorithm: a stable
    descending arrangement of [l] is [sort_desc key l]. *)
Theorem sort_desc_unique l l' :
  StronglySorted (descending key) l' ->
  (forall q, with_key key q l' = with_key key q l) ->
  l' = sort_desc key l.
Proof.
  intros Hs Heq. apply sorted_with_key_eq; [exact Hs | apply sort_desc_sorted |].
  intros q. now rewrite sort_desc_stable.
Qed.

End SortDesc.

(** ** Retrieval across collections *)

Section Gathering.

Import Spec.

Variable client : QdrantClient.
Variable query_vector : list Q.
Variable top_k : Z.

Lemma client_search_eq c :
  client_search client c query_vector top_k
  = call (Search c top_k) (search client c query_vector top_k).
Proof. reflexivity. Qed.

(** The loop of [semantic_search] when every search succeeds. *)
Lemma gather_loop (found : string -> list ScoredPoint) cols acc :
  (forall c, In c cols -> search client c query_vector top_k = Ok (found c)) ->
  for_loop cols
    (fun all_results collection =>
       search_results ← client_search client collection query_vector top_k;
       mret (all_results ++ search_results)) acc
  = (map (fun c => Search c top_k) cols, Ok (acc ++ concat (map found cols))).
Proof.
  revert acc. induction cols as [|c cols IH]; intros acc H.
  - cbn. now rewrite app_nil_r.
  - cbn [for_loop map concat]. rewrite client_search_eq. unfold call.
    rewrite (H c) by now left. rewrite bind_assoc, bind_ok, bind_ret_l.
    rewrite IH by (intros c' Hc'; apply H; now right).
    cbn. now rewrite <- app_assoc.
Qed.

(** The loop of [semantic_search] stops at the first search that fails:
    the failure leaves the loop, the later collections are not searched. *)
Lemma gather_loop_raises (found : string -> list ScoredPoint) pre c post e acc :
  (forall c', In c' pre -> search client c' query_vector top_k = Ok (found c')) ->
  search client c query_vector top_k = Raise e ->
  for_loop (pre ++ c :: post)
    (fun all_results collection =>
       search_results ← client_search client collection query_vector top_k;
       mret (all_results ++ search_results)) acc
  = (map (fun c => Search c top_k) (pre ++ [c]), Raise e).
Proof.
  revert acc. induction pre as [|p pre IH]; intros acc H He.
  - cbn [app for_loop]. rewrite client_search_eq, He. reflexivity.
  - cbn [app for_loop map]. rewrite client_search_eq. unfold call.
    rewrite (H p) by now left. rewrite bind_assoc, bind_ok, bind_ret_l.
    rewrite IH; [reflexivity | | exact He]. intros c' Hc'. apply H. now right.
Qed.

(** The loop of [search_vector_db]: a failed search is printed and adds
    nothing; the loop goes on with the next collection. *)
Lemma skip_loop cols acc :
  for_loop cols
    (fun results collection =>
       try_except
         (search_result ← client_search client collection query_vector top_k;
          mret (results ++ search_result))
         (fun e =>
            _ ← print ("Error searching collection " +:+ collection +:+ ": "
                       +:+ str_exn e);
            mret results)) acc
  = (flat_map (search_events client query_vector top_k) cols,
     Ok (acc ++ flat_map (found_or_skipped client query_vector top_k) cols)).
Proof.
  revert acc. induction cols as [|c cols IH]; intros acc.
  - cbn. now rewrite app_nil_r.
  - cbn [for_loop flat_map]. rewrite client_search_eq.
    rewrite try_except_bind_call. unfold search_events at 1, found_or_skipped at 1.
    destruct (search client c query_vector top_k) as [results | e].
    + unfold mret, M_ret, Py.ret in *. cbn [try_except fst snd].
      rewrite bind_ok, IH. cbn [fst snd app]. now rewrite <- app_assoc.
    + unfold mret, M_ret, Py.ret in *. rewrite bind_print. cbn [fst snd].
      rewrite bind_ok, IH. reflexivity.
Qed.

End Gathering.

Section CrossCollection.

Import Spec.

Lemma semantic_search_eq self query top_k found query_vector :
  FlexcubeTestCaseGenerator._pad_embeddings self
    (encode (FlexcubeTestCaseGenerator.embedding_model self) query) = mret query_vector ->
  (forall c, In c (FlexcubeTestCaseGenerator.collection_names self) ->
     search (FlexcubeTestCaseGenerator.qdrant_client self) c query_vector top_k
       = Ok (found c)) ->
  FlexcubeTestCaseGenerator.semantic_search self query top_k
  = (map (fun c => Search c top_k) (FlexcubeTestCaseGenerator.collection_names self),
     Ok (map text_of
           (list_slice_to top_k
              (sort_desc score
                 (concat (map found (FlexcubeTestCaseGenerator.collection_names self))))))).
Proof.
  intros Hp Hs. unfold FlexcubeTestCaseGenerator.semantic_search.
  cbv zeta. rewrite Hp, bind_ret_l, (gather_loop _ _ _ found) by exact Hs.
  rewrite bind_ok. cbn. now rewrite app_nil_r.
Qed.

(** C2. When the searches succeed, [semantic_search] returns the texts of
    the first [top_k] matches of the ranking, and the ranking is the
    concatenation of the matches of all collections arranged by descending
    score, the matches of equal score in the order in which they were
    gathered; no other arrangement is descending and keeps that order. *)
Theorem semantic_search_ranked self query top_k found query_vector :
  0 <= top_k ->
  FlexcubeTestCaseGenerator._pad_embeddings self
    (encode (FlexcubeTestCaseGenerator.embedding_model self) query) = mret query_vector ->
  (forall c, In c (FlexcubeTestCaseGenerator.collection_names self) ->
     search (FlexcubeTestCaseGenerator.qdrant_client self) c query_vector top_k
       = Ok (found c)) ->
  let gathered := concat (map found (FlexcubeTestCaseGenerator.collection_names self)) in
  let ranked := sort_desc score gathered in
  Permutation ranked gathered /\
  StronglySorted (descending score) ranked /\
  (forall q, with_key score q ranked = with_key score q gathered) /\
  (forall l, StronglySorted (descending score) l ->
             (forall q, with_key score q l = with_key score q gathered) ->
             l = ranked) /\
  Z.of_nat (length (firstn (Z.to_nat top_k) ranked)) <= top_k /\
  outcome (FlexcubeTestCaseGenerator.semantic_search self query top_k)
    = Ok (map text_of (firstn (Z.to_nat top_k) ranked)).
Proof.
  intros Hk Hp Hs gathered ranked.
  split; [apply sort_desc_perm |].
  split; [apply sort_desc_sorted |].
  split; [intros q; apply sort_desc_stable |].
  split; [intros l Hl Hq; now apply sort_desc_unique |].
  split; [rewrite length_firstn; lia |].
  rewrite (semantic_search_eq self query top_k found query_vector Hp Hs).
  unfold outcome. cbn [snd]. now rewrite list_slice_to_nonneg.
Qed.

(** [semantic_search] has no handler around its searches: the first
    failure leaves the call. *)
Lemma semantic_search_propagates self query top_k found query_vector pre c post e :
  FlexcubeTestCaseGenerator._pad_embeddings self
    (encode (FlexcubeTestCaseGenerator.embedding_model self) query) = mret query_vector ->
  FlexcubeTestCaseGenerator.collection_names self = pre ++ c :: post ->
  (forall c', In c' pre ->
     search (FlexcubeTestCaseGenerator.qdrant_client self) c' query_vector top_k
       = Ok (found c')) ->
  search (FlexcubeTestCaseGenerator.qdrant_client self) c query_vector top_k = Raise e ->
  FlexcubeTestCaseGenerator.semantic_search self query top_k
  = (map (fun c => Search c top_k) (pre ++ [c]), Raise e).
Proof.
  intros Hp Hc Hs He. unfold FlexcubeTestCaseGenerator.semantic_search.
  cbv zeta. rewrite Hp, bind_ret_l, Hc.
  rewrite (gather_loop_raises _ _ _ found pre c post e) by assumption.
  reflexivity.
Qed.

(** [search_vector_db] searches every collection, prints and skips the
    ones whose search fails, and returns the matches of the others; it
    never raises. *)
Lemma search_vector_db_skips_failures self query top_k :
  exists query_vector,
    FunctionDocumentGenerator.generate_embeddings self query = mret query_vector /\
    FunctionDocumentGenerator.search_vector_db self query top_k
    = (flat_map
         (search_events (FunctionDocumentGenerator.qdrant_client self) query_vector top_k)
         (FunctionDocumentGenerator.collection_names self),
       Ok (flat_map
             (found_or_skipped (FunctionDocumentGenerator.qdrant_client self)
                query_vector top_k)
             (FunctionDocumentGenerator.collection_names self))).
Proof.
  destruct (generate_embeddings_returns self query) as (v & Hv).
  exists v. split; [exact Hv |].
  unfold FunctionDocumentGenerator.search_vector_db.
  rewrite Hv, bind_ret_l, skip_loop. reflexivity.
Qed.

End CrossCollection.

(** ** The properties at concrete inputs *)

Section Concrete.

Import CodeGenerator Spec Examples.

(** C6. With the search of collection A down, [semantic_search] raises
    and returns nothing, while [search_vector_db] prints the failure and
    returns the match of collection B; with every search down,
    [semantic_search] raises again and [search_vector_db] returns the empty
    list. *)
Theorem retrieval_failure_divergence :
  FlexcubeTestCaseGenerator.semantic_search (flexcube store_a_down) "query" 5
    = ([Search "A" 5], Raise (Exception "timed out")) /\
  FunctionDocumentGenerator.search_vector_db (docgen minilm store_a_down) "query" 5
    = ([Search "A" 5; Printed "Error searching collection A: timed out"; Search "B" 5],
       Ok [point "b 0.99" (99 # 100)]) /\
  FlexcubeTestCaseGenerator.semantic_search (flexcube store_down) "query" 5
    = ([Search "A" 5], Raise (Exception "timed out")) /\
  FunctionDocumentGenerator.search_vector_db (docgen minilm store_down) "query" 5
    = ([Search "A" 5; Printed "Error searching collection A: timed out";
        Search "B" 5; Printed "Error searching collection B: timed out"],
       Ok []).
Proof. repeat split; vm_compute; reflexivity. Qed.

(** [_pad_embeddings] trusts [original_dim]: on a vector of another
    length it adds the same 512 zeros. *)
Remark pad_embeddings_trusts_original_dim :
  exists r,
    FlexcubeTestCaseGenerator._pad_embeddings (flexcube store) (encode wide "query")
      = mret r /\ length r = 1412%nat.
Proof. eexists. split; vm_compute; reflexivity. Qed.

(** The requirement of 5000 characters reaches the generation stage as
    203 characters, the stage output of 3000 reaches the reviewer as 1003:
    neither is within its budget of 200 and 1000 characters. *)
Lemma truncation_budget_exceeded :
  String.length requirement_5000 = 5000%nat /\
  run_crew connect_store no_set_repr no_repr crew_down generator_without_model
    requirement_5000
  = ([Printed ("Starting code generation for: " +:+ requirement_5000);
      Printed "SentenceTransformer model not initialized. Returning empty results.";
      Printed "Found 0 related examples";
      Kickoff "Code Generator"
        (unlines (code_gen_header
                    ++ [slice_to 200 requirement_5000 +:+ "..."; ""; ""; ""]));
      Printed "Error in run_crew: backend unreachable"],
     Ok run_crew_error) /\
  String.length (slice_to 200 requirement_5000 +:+ "...") = 203%nat /\
  ~ (String.length (slice_to 200 requirement_5000 +:+ "...") <= 200)%nat /\
  String.length output_3000 = 3000%nat /\
  description (_review_task_fn output_3000 code_reviewer)
  = unlines
      [ "Review the following PL/SQL code implementation:";
        "";
        slice_to 1000 output_3000 +:+ "...";
        "";
        "Provide detailed suggestions for improvement, identify any logic or syntax issues, and recommend enhancements.";
        "";
        "Respond with a list of issues (if any) and suggestions.";
        "" ] /\
  String.length (slice_to 1000 output_3000 +:+ "...") = 1003%nat /\
  ~ (String.length (slice_to 1000 output_3000 +:+ "...") <= 1000)%nat.
Proof.
  split; [vm_compute; reflexivity |].
  split; [vm_compute; reflexivity |].
  split; [vm_compute; reflexivity |].
  split; [change (~ (203 <= 200)%nat); lia |].
  split; [vm_compute; reflexivity |].
  split; [vm_compute; reflexivity |].
  split; [vm_compute; reflexivity |].
  change (~ (1003 <= 1000)%nat); lia.
Qed.

End Concrete.

(** ** The theorems applied *)

Section Witnesses.

Import CodeGenerator Spec Examples.

Lemma embedding_resized_witness :
  0 <= FlexcubeTestCaseGenerator.target_dim (flexcube store) /\
  (exists r,
     FlexcubeTestCaseGenerator._pad_embeddings (flexcube store)
       (encode minilm "query") = mret r /\
     resized (encode minilm "query") 896 r) /\
  (exists r,
     FunctionDocumentGenerator.generate_embeddings (docgen wide store) "query" = mret r /\
     resized (encode wide "query") 896 r).
Proof.
  split; [vm_compute; discriminate |].
  split.
  - apply (proj1 embedding_resized (flexcube store) "query").
    + vm_compute; discriminate.
    + vm_compute; reflexivity.
  - apply (proj2 embedding_resized (docgen wide store) "query").
Defined.

Lemma semantic_search_ranked_witness :
  0 <= 2 /\
  outcome (FlexcubeTestCaseGenerator.semantic_search (flexcube store) "query" 2)
    = Ok [VStr "b 0.99"; VStr "a 0.95"].
Proof.
  split; [lia |].
  pose (found := fun c => found_or_skipped store [] 2 c).
  pose (v := repeat (1 # 2)%Q 384 ++ repeat 0%Q 512).
  assert (0 <= 2) as H1 by lia.
  assert (FlexcubeTestCaseGenerator._pad_embeddings (flexcube store)
            (encode (FlexcubeTestCaseGenerator.embedding_model (flexcube store)) "query")
          = mret v) as H2 by (vm_compute; reflexivity).
  assert (forall c, In c (FlexcubeTestCaseGenerator.collection_names (flexcube store)) ->
            search (FlexcubeTestCaseGenerator.qdrant_client (flexcube store)) c v 2
            = Ok (found c)) as H3.
  { intros c [<- | [<- | []]]; reflexivity. }
  destruct (semantic_search_ranked (flexcube store) "query" 2 found v H1 H2 H3)
    as (_ & _ & _ & _ & _ & Hout).
  rewrite Hout. vm_compute. reflexivity.
Defined.

Lemma format_final_result_reports_missing_witness :
  str_contains "Required Import:" text_without_import = false /\
  exists missing : list string,
    missing <> [] /\
    (forall h, In h missing <->
               In h required_sections /\ str_contains h text_without_import = false) /\
    outcome (_format_final_result text_without_import)
      = Ok (missing_banner missing +:+ text_without_import) /\
    missing_banner missing
      = "/* Error: The following sections are missing from the generated result: "
        +:+ String.concat ", " missing +:+ ". Please retry. */" +:+ nl +:+ nl /\
    (forall h, In h required_sections ->
               str_contains h (missing_banner missing) = true <-> In h missing) /\
    str_contains text_without_import (missing_banner missing +:+ text_without_import)
      = true.
Proof.
  split; [vm_compute; reflexivity |].
  apply (format_final_result_reports_missing text_without_import).
  exists "Required Import:". split; [simpl; tauto | vm_compute; reflexivity].
Defined.

Lemma format_final_result_conformant_witness :
  _format_final_result conformant_text = mret conformant_text /\
  (_format_final_result conformant_text ≫= _format_final_result)
    = _format_final_result conformant_text.
Proof.
  apply (format_final_result_conformant conformant_text).
  intros h Hin. simpl in Hin.
  repeat (destruct Hin as [<- | Hin]; [vm_compute; reflexivity |]).
  destruct Hin.
Defined.

Lemma truncation_at_producer_witness :
  (200 < String.length requirement_5000)%nat /\
  String.length (clip 200 requirement_5000) = 203%nat /\
  (String.length "add a function to calculate interest" <= 200)%nat /\
  clip 200 "add a function to calculate interest"
    = "add a function to calculate interest".
Proof.
  assert (200 < String.length requirement_5000)%nat as Hlong
    by (vm_compute; lia).
  assert (String.length "add a function to calculate interest" <= 200)%nat as Hshort
    by (vm_compute; lia).
  destruct (truncation_at_producer connect_store no_set_repr no_repr crew_down
              generator_without_model requirement_5000)
    as (Hle & Hgt & _ & _).
  split; [exact Hlong |].
  split; [exact (proj2 (proj2 (proj2 (Hgt 200%nat requirement_5000 Hlong)))) |].
  split; [exact Hshort |].
  exact (Hle 200%nat "add a function to calculate interest" Hshort).
Defined.

Lemma search_relevant_code_short_circuits_witness :
  CodeGenerator.model generator_without_model = None /\
  outcome (search_relevant_code connect_store no_set_repr generator_without_model
             "PL/SQL interest" 1) = Ok [] /\
  outcome (search_relevant_code connect_store no_set_repr generator
             "PL/SQL interest" 1) = Ok [].
Proof.
  split; [reflexivity |]. split.
  - apply (search_relevant_code_short_circuits connect_store no_set_repr
             generator_without_model "PL/SQL interest" 1).
    left. reflexivity.
  - apply (search_relevant_code_short_circuits connect_store no_set_repr
             generator "PL/SQL interest" 1).
    right. intros client names [= <-] [= <-] col Hcol Hin.
    simpl in Hcol, Hin.
    repeat (destruct Hcol as [<- | Hcol];
            [repeat (destruct Hin as [Hin | Hin]; [discriminate |]); destruct Hin |]).
    destruct Hcol.
Defined.

Lemma extract_content_priority_witness :
  _extract_content_from_payload no_repr
    (VDict [("text", VStr "from text"); ("content", VStr "from content")])
    = mret "from content" /\
  _extract_content_from_payload no_repr
    (VDict [("content", VStr ""); ("text", VStr "from text")])
    = mret "from text" /\
  _extract_content_from_payload no_repr (VDict [("title", VStr "untitled")])
    = mret "<object>" /\
  _extract_content_from_payload no_repr (VInt 7) = mret "<object>".
Proof.
  split; [| split; [| split]].
  - apply (proj1 (extract_content_priority no_repr
               (VDict [("text", VStr "from text"); ("content", VStr "from content")]))
             [("text", VStr "from text"); ("content", VStr "from content")]
             (VStr "from content")); reflexivity.
  - apply (proj1 (proj2 (extract_content_priority no_repr
               (VDict [("content", VStr ""); ("text", VStr "from text")])))
             [("content", VStr ""); ("text", VStr "from text")]
             (VStr "from text")); reflexivity.
  - apply (proj1 (proj2 (proj2 (extract_content_priority no_repr
               (VDict [("title", VStr "untitled")]))))
             [("title", VStr "untitled")]); reflexivity.
  - apply (proj1 (proj2 (proj2 (proj2 (extract_content_priority no_repr (VInt 7)))))).
    intros d. discriminate.
Defined.

Lemma chat_never_raises_witness :
  outcome (chat rate_limited wrapper user_message) = Ok rate_limit_message /\
  outcome (chat unreachable wrapper user_message) = Ok degraded_message /\
  outcome (chat answering wrapper user_message) = Ok "BEGIN NULL; END;".
Proof.
  split; [| split].
  - apply (proj1 (proj2 (proj2 (chat_never_raises rate_limited wrapper user_message)))
             "429").
    reflexivity.
  - apply (proj1 (proj2 (proj2 (proj2
             (chat_never_raises unreachable wrapper user_message))))
             "connection refused").
    reflexivity.
  - apply (proj2 (proj2 (proj2 (proj2 (proj2
             (chat_never_raises answering wrapper user_message)))))
             {| choices := [ {| message := {| role := "assistant";
                                              content := "BEGIN NULL; END;" |} |} ] |}
             {| message := {| role := "assistant"; content := "BEGIN NULL; END;" |} |}
             []); reflexivity.
Defined.

End Witnesses.

(** ** More on the retrieval of the pipeline *)

Section CodeRetrievalMore.

Import CodeGenerator Spec.

Variable connect : string -> string -> res QdrantClient.
Variable repr_set : gset string -> string.

(** The requested collections that the catalogue has, in the order of the
    request. *)
Lemma filter_first {A} (f : A -> bool) pre x post :
  (forall p, In p pre -> f p = false) -> f x = true ->
  List.filter f (pre ++ x :: post) = x :: List.filter f post.
Proof.
  intros Hpre Hx. rewrite List.filter_app, (filter_none f pre Hpre).
  cbn. now rewrite Hx.
Qed.

(** All the ways [search_relevant_code] can go. *)
Lemma search_relevant_code_cases self query n_results :
  let r := search_relevant_code connect repr_set self query n_results in
  (model self = None /\
   r = ([Printed "SentenceTransformer model not initialized. Returning empty results."],
        Ok [])) \/
  (exists m, model self = Some m /\
     ((exists e, connect (qdrant_url self) (qdrant_api_key self) = Raise e /\
         r = ([Printed ("Error in search_relevant_code: " +:+ str_exn e)], Ok [])) \/
      (exists client, connect (qdrant_url self) (qdrant_api_key self) = Ok client /\
         ((exists e, get_collections client = Raise e /\
             r = ([Printed ("Error in search_relevant_code: " +:+ str_exn e)], Ok [])) \/
          (exists names, get_collections client = Ok names /\
             match List.filter (fun col => bool_decide (col ∈ (list_to_set names : gset string)))
                               (collections self) with
             | [] =>
                 r = ([Printed ("No valid collections found in Qdrant! Available: "
                                +:+ repr_set (list_to_set names))], Ok [])
             | first :: _ =>
                 r = match search client first (encode m query) n_results with
                     | Ok results =>
                         ([Search first n_results],
                          Ok (map (fun result => VDict (payload result)) results))
                     | Raise e =>
                         ([Search first n_results;
                           Printed ("Error searching collection " +:+ first +:+ ": "
                                    +:+ str_exn e)],
                          Ok [])
                     end
             end))))).
Proof.
  intros r. subst r. unfold search_relevant_code.
  destruct (model self) as [m|]; [right; exists m; split; [reflexivity |] | now left].
  run_py; cbn.
  destruct (connect _ _) as [client|e]; cbn; [right; exists client; split; [reflexivity|] | left; now exists e].
  destruct (get_collections client) as [names|e]; cbn; [right; exists names; split; [reflexivity|] | left; now exists e].
  destruct (List.filter _ _) as [|first rest]; cbn; [reflexivity |].
  destruct (search client first _ _) as [results|e]; cbn; reflexivity.
Qed.

Ltac search_cases self query n_results H :=
  destruct (search_relevant_code_cases self query n_results)
    as [[Hm' H] | (m' & Hm' &
         [(e' & Hc' & H) | (client' & Hc' &
            [(e' & Hn' & H) | (names' & Hn' & H)])])];
  cbv zeta in H.

(** X6. [search_relevant_code] issues at most one similarity search, with
    the requested limit, and only against a collection that is both
    requested and listed in the catalogue of the store. *)
Theorem search_relevant_code_one_search self query n_results :
  (length (List.filter is_search
             (trace (search_relevant_code connect repr_set self query n_results)))
   <= 1)%nat /\
  forall c k,
    In (Search c k) (trace (search_relevant_code connect repr_set self query n_results)) ->
    k = n_results /\ In c (collections self) /\
    exists client names,
      connect (qdrant_url self) (qdrant_api_key self) = Ok client /\
      get_collections client = Ok names /\ In c names.
Proof.
  search_cases self query n_results H.
  1-3: rewrite H; split; [cbn; lia | intros c k [[=] | []]].
  destruct (List.filter _ (collections self)) as [|first rest] eqn:Hf.
  - rewrite H. split; [cbn; lia | intros c k [[=] | []]].
  - assert (In first (collections self) /\ In first names') as [Hreq Hex].
    { assert (In first (first :: rest)) as Hin by now left.
      rewrite <- Hf in Hin. apply filter_In in Hin as [Hin Hb]. split; [exact Hin |].
      apply bool_decide_eq_true in Hb.
      now rewrite elem_of_list_to_set, list_elem_of_In in Hb. }
    rewrite H. destruct (search client' first (encode m' query) n_results);
      (split; [cbn; lia |]); cbn [trace fst In].
    + intros c k [[= <- <-] | []]. split; [reflexivity |]. split; [exact Hreq |].
      now exists client', names'.
    + intros c k [[= <- <-] | [[=] | []]]. split; [reflexivity |]. split; [exact Hreq |].
      now exists client', names'.
Qed.

(** X7. With a usable model and a reachable catalogue, only the first
    requested collection that the catalogue lists is searched: its matches
    come back as their payloads, in the order of the store, and a failure of
    that search gives the empty list; the later collections are not
    consulted in either case. *)
Theorem search_relevant_code_first_collection
    self query n_results m client names pre first post :
  model self = Some m ->
  connect (qdrant_url self) (qdrant_api_key self) = Ok client ->
  get_collections client = Ok names ->
  collections self = pre ++ first :: post ->
  (forall p, In p pre -> ~ In p names) ->
  In first names ->
  List.filter is_search
    (trace (search_relevant_code connect repr_set self query n_results))
    = [Search first n_results] /\
  outcome (search_relevant_code connect repr_set self query n_results)
    = Ok match search client first (encode m query) n_results with
         | Ok results => map (fun result => VDict (payload result)) results
         | Raise _ => []
         end.
Proof.
  intros Hm Hc Hn Hcols Hpre Hfirst.
  search_cases self query n_results H; try congruence.
  rewrite Hm in Hm'. injection Hm' as <-.
  rewrite Hc in Hc'. injection Hc' as <-.
  rewrite Hn in Hn'. injection Hn' as <-.
  rewrite Hcols, filter_first in H.
  - rewrite H. destruct (search client first (encode m query) n_results);
      split; reflexivity.
  - intros p Hp. apply bool_decide_eq_false.
    rewrite elem_of_list_to_set, list_elem_of_In. now apply Hpre.
  - apply bool_decide_eq_true.
    now rewrite elem_of_list_to_set, list_elem_of_In.
Qed.



End CodeRetrievalMore.

(** ** The pipeline as a whole *)

Section PipelineRun.

Import CodeGenerator Spec.

Variable connect : string -> string -> res QdrantClient.
Variable repr_set : gset string -> string.
Variable repr : value -> string.
Variable crew_kickoff : Task -> res string.

(** The stages of [run_crew], from the generation task on, are [stages]. *)
Lemma run_stages_eq task1 :
  try_except
    (gen_result ← kickoff crew_kickoff task1;
     _ ← print "Code generation completed";
     _ ← sleep 2;
     review_result ← kickoff crew_kickoff (_review_task_fn gen_result code_reviewer);
     _ ← print "Code review completed";
     _ ← sleep 2;
     final_result ←
       kickoff crew_kickoff (_improvement_task_fn review_result gen_result code_improver);
     _ ← print "Code improvement completed";
     formatted_result ← _format_final_result final_result;
     mret formatted_result)
    (fun e => _ ← print ("Error in run_crew: " +:+ str_exn e); mret run_crew_error)
  = stages crew_kickoff task1.
Proof.
  unfold stages, kickoff, sleep. rewrite try_except_bind_call.
  destruct (crew_kickoff task1) as [gen | e]; [| reflexivity].
  rewrite try_except_bind_print, try_except_bind_call. cbv iota zeta.
  rewrite try_except_bind_call.
  destruct (crew_kickoff (_review_task_fn gen code_reviewer)) as [review | e];
    [| reflexivity].
  rewrite try_except_bind_print, try_except_bind_call. cbv iota.
  rewrite try_except_bind_call.
  destruct (crew_kickoff (_improvement_task_fn review gen code_improver))
    as [final | e]; [| reflexivity].
  rewrite try_except_bind_print, format_final_result_eq.
  fold (validated final). rewrite bind_ok. unfold mret, M_ret, Py.ret.
  cbn [fst snd try_except]. now rewrite app_nil_r.
Qed.

Lemma run_crew_eq self code_requirements :
  exists ts payloads examples_text,
    search_relevant_code connect repr_set self
      ("PL/SQL " +:+ clip 200 code_requirements) 1 = (ts, Ok payloads) /\
    List.filter is_kickoff ts = [] /\
    (payloads = [] /\ examples_text = "" \/
     exists example rest content,
       payloads = example :: rest /\
       _extract_content_from_payload repr example = mret content /\
       examples_text = "Here's a related code example:" +:+ nl +:+ nl
                       +:+ clip 1000 content +:+ nl +:+ nl) /\
    let task1 :=
      {| description :=
           unlines (code_gen_header
                      ++ [clip 200 code_requirements; ""; examples_text; ""]);
         expected_output :=
           "A fully filled-out, structured answer with all seven sections above.";
         agent := code_generator |} in
    run_crew connect repr_set repr crew_kickoff self code_requirements
    = (Printed ("Starting code generation for: " +:+ code_requirements)
         :: ts
         ++ Printed ("Found " +:+ str_nat (length payloads) +:+ " related examples")
         :: (stages crew_kickoff task1).1,
       (stages crew_kickoff task1).2).
Proof.
  destruct (search_relevant_code_returns connect repr_set self
              ("PL/SQL " +:+ clip 200 code_requirements) 1)
    as (ts & payloads & Hs & Hk).
  assert (exists examples_text,
    (payloads = [] /\ examples_text = "" \/
     exists example rest content,
       payloads = example :: rest /\
       _extract_content_from_payload repr example = mret content /\
       examples_text = "Here's a related code example:" +:+ nl +:+ nl
                       +:+ clip 1000 content +:+ nl +:+ nl) /\
    _code_gen_task_fn repr
      [("type", VStr "PL/SQL"); ("description", VStr (clip 200 code_requirements))]
      payloads code_generator
    = mret {| description :=
                unlines (code_gen_header
                           ++ [clip 200 code_requirements; ""; examples_text; ""]);
              expected_output :=
                "A fully filled-out, structured answer with all seven sections above.";
              agent := code_generator |}) as (examples_text & Hex & Hg).
  { unfold _code_gen_task_fn. destruct payloads as [|example rest].
    - exists "". split; [now left |]. rewrite bind_ret_l. reflexivity.
    - destruct (extract_content_returns repr example) as [text Ht].
      eexists. split; [right; exists example, rest, text; repeat split; exact Ht |].
      rewrite Ht, !bind_ret_l. reflexivity. }
  exists ts, payloads, examples_text.
  split; [exact Hs |]. split; [exact Hk |]. split; [exact Hex |].
  intros task1. unfold run_crew.
  cbv zeta. rewrite bind_print. cbn [fst snd]. rewrite Hs.
  rewrite bind_ok, bind_print.
  change (@mret Py.M _ _ payloads)
    with (@pair (list event) (res (list value)) [] (Ok payloads)).
  cbn [fst snd]. rewrite try_except_ok, bind_ok. cbn [fst snd].
  rewrite Hg, bind_ret_l. fold task1. rewrite run_stages_eq.
  rewrite <- app_assoc. reflexivity.
Qed.


Lemma length_concat sep (l : list string) :
  String.length (String.concat sep l)
  = (list_sum (map String.length l) + String.length sep * (length l - 1))%nat.
Proof.
  induction l as [|x l IH]; [cbn; lia |].
  destruct l as [|y l]; [cbn; lia |].
  change (String.concat sep (x :: y :: l))
    with (x +:+ sep +:+ String.concat sep (y :: l)).
  rewrite !str_length_app, IH. cbn [map list_sum fold_right length Nat.sub].
  rewrite Nat.sub_0_r, Nat.mul_succ_r. lia.
Qed.

Lemma clip_length n s : (String.length (clip n s) <= n + 3)%nat.
Proof.
  destruct (Nat.le_gt_cases (String.length s) n) as [H | H].
  - rewrite clip_le by exact H. lia.
  - destruct (clip_gt n s H) as [_ ->]. lia.
Qed.

Lemma review_prompt_length code_output agent :
  String.length (description (_review_task_fn code_output agent))
  = (220 + String.length (clip 1000 code_output))%nat.
Proof.
  unfold _review_task_fn. cbn [description]. unfold unlines.
  rewrite length_concat. generalize (clip 1000 code_output) as c. intros c.
  cbn. lia.
Qed.

Lemma improvement_prompt_length review_notes original_code agent :
  String.length (description (_improvement_task_fn review_notes original_code agent))
  = (426 + String.length (clip 100 review_notes)
         + String.length (clip 2000 original_code))%nat.
Proof.
  unfold _improvement_task_fn. cbn [description]. unfold unlines.
  rewrite length_concat.
  generalize (clip 100 review_notes) as r, (clip 2000 original_code) as c. intros r c.
  cbn. lia.
Qed.

Lemma generation_prompt_length requirements examples_text :
  String.length (unlines (code_gen_header ++ [requirements; ""; examples_text; ""]))
  = (1030 + String.length requirements + String.length examples_text)%nat.
Proof.
  unfold unlines. rewrite length_concat. cbn. lia.
Qed.

Lemma validated_nonempty result : validated result <> "".
Proof.
  unfold validated. destruct (missing_sections result) as [|m l] eqn:E.
  - intros ->. vm_compute in E. discriminate.
  - intros H. apply (f_equal String.length) in H.
    unfold missing_banner in H. rewrite !str_length_app in H. cbn in H. lia.
Qed.

(** The stages never raise: they end with the fixed error text or with
    the validated output of the third stage. *)
Lemma stages_outcome task1 :
  (stages crew_kickoff task1).2 = Ok run_crew_error \/
  exists final_result, (stages crew_kickoff task1).2 = Ok (validated final_result).
Proof.
  unfold stages. destruct (crew_kickoff task1) as [gen|e]; [| now left].
  cbv zeta. destruct (crew_kickoff _) as [review|e]; [| now left].
  destruct (crew_kickoff _) as [final|e]; [| now left].
  right. now exists final.
Qed.

Lemma stages_kickoffs task1 role prompt :
  In (Kickoff role prompt) (stages crew_kickoff task1).1 ->
  (role = agent_role (agent task1) /\ prompt = description task1) \/
  (exists out, role = "Code Reviewer" /\
               prompt = description (_review_task_fn out code_reviewer)) \/
  (exists notes out, role = "Code Improver" /\
     prompt = description (_improvement_task_fn notes out code_improver)).
Proof.
  unfold stages. destruct (crew_kickoff task1) as [gen|e]; cbv zeta.
  2:{ cbn [fst In]. intros [[= <- <-] | [[=] | []]]. left. now split. }
  destruct (crew_kickoff (_review_task_fn gen code_reviewer)) as [review|e].
  2:{ cbn [fst In].
      intros [[= <- <-] | [[=] | [[=] | [[= <- <-] | [[=] | []]]]]].
      - left. now split.
      - right; left. now exists gen. }
  destruct (crew_kickoff (_improvement_task_fn review gen code_improver))
    as [final|e].
  2:{ cbn [fst In].
      intros [[= <- <-] | [[=] | [[=] | [[= <- <-] | [[=] | [[=] |
               [[= <- <-] | [[=] | []]]]]]]]].
      - left. now split.
      - right; left. now exists gen.
      - right; right. now exists review, gen. }
  cbn [fst]. rewrite in_app_iff. cbn [In].
  intros [[[= <- <-] | [[=] | [[=] | [[= <- <-] | [[=] | [[=] |
            [[= <- <-] | [[=] | []]]]]]]]] | Hw].
  - left. now split.
  - right; left. now exists gen.
  - right; right. now exists review, gen.
  - apply in_map_iff in Hw as (h & [=] & _).
Qed.

(** X1. [run_crew] never raises and never returns the empty string:
    whatever the store and the stages do, it returns the validated output
    of the third stage or the fixed error text. (The three [Agent]
    records are built outside the handlers; building them is taken to
    succeed.) *)
Theorem run_crew_returns_text self code_requirements :
  exists text,
    outcome (run_crew connect repr_set repr crew_kickoff self code_requirements)
      = Ok text /\
    text <> "" /\
    (text = run_crew_error \/ exists final_result, text = validated final_result).
Proof.
  destruct (run_crew_eq self code_requirements)
    as (ts & payloads & examples_text & _ & _ & _ & Heq).
  cbv zeta in Heq. rewrite Heq. unfold outcome. cbn [snd].
  destruct (stages_outcome
              {| description :=
                   unlines (code_gen_header
                              ++ [clip 200 code_requirements; ""; examples_text; ""]);
                 expected_output :=
                   "A fully filled-out, structured answer with all seven sections above.";
                 agent := code_generator |}) as [-> | [final ->]].
  - exists run_crew_error. split; [reflexivity |]. split; [discriminate | now left].
  - exists (validated final). split; [reflexivity |].
    split; [apply validated_nonempty | right; now exists final].
Qed.



(** X3. A stage that fails ends the pipeline: [run_crew] returns the
    fixed error text and starts no later stage, whether the failure is in
    the generator, the reviewer or the improver. *)
Theorem run_crew_stage_failure self code_requirements e :
  ((forall task, agent task = code_generator -> crew_kickoff task = Raise e) ->
   outcome (run_crew connect repr_set repr crew_kickoff self code_requirements)
     = Ok run_crew_error /\
   exists task1,
     List.filter is_kickoff
       (trace (run_crew connect repr_set repr crew_kickoff self code_requirements))
     = [kickoff_event task1]) /\
  (forall gen_result,
     (forall task, agent task = code_generator -> crew_kickoff task = Ok gen_result) ->
     crew_kickoff (_review_task_fn gen_result code_reviewer) = Raise e ->
     outcome (run_crew connect repr_set repr crew_kickoff self code_requirements)
       = Ok run_crew_error /\
     exists task1,
       List.filter is_kickoff
         (trace (run_crew connect repr_set repr crew_kickoff self code_requirements))
       = [kickoff_event task1;
          kickoff_event (_review_task_fn gen_result code_reviewer)]) /\
  (forall gen_result review_result,
     (forall task, agent task = code_generator -> crew_kickoff task = Ok gen_result) ->
     crew_kickoff (_review_task_fn gen_result code_reviewer) = Ok review_result ->
     crew_kickoff (_improvement_task_fn review_result gen_result code_improver)
       = Raise e ->
     outcome (run_crew connect repr_set repr crew_kickoff self code_requirements)
       = Ok run_crew_error /\
     In (Printed ("Error in run_crew: " +:+ str_exn e))
        (trace (run_crew connect repr_set repr crew_kickoff self code_requirements))).
Proof.
  destruct (run_crew_eq self code_requirements)
    as (ts & payloads & examples_text & Hs & Hk & _ & Heq).
  cbv zeta in Heq.
  match type of Heq with context [stages _ ?t] => set (task1 := t) in * end.
  rewrite Heq. clear Heq.
  unfold stages, trace, outcome. split; [| split].
  - intros H1. rewrite (H1 task1 eq_refl). cbn [fst snd]. split; [reflexivity |].
    exists task1. cbn [List.filter is_kickoff]. rewrite List.filter_app, Hk. reflexivity.
  - intros gen H1 H2. rewrite (H1 task1 eq_refl). cbv zeta. rewrite H2. cbn [fst snd].
    split; [reflexivity |].
    exists task1. cbn [List.filter is_kickoff]. rewrite List.filter_app, Hk. reflexivity.
  - intros gen review H1 H2 H3. rewrite (H1 task1 eq_refl). cbv zeta. rewrite H2, H3.
    cbn [fst snd]. split; [reflexivity |].
    right. apply in_or_app. right. cbn. tauto.
Qed.

Lemma task_prompts_bounded_review code_output agent :
  (String.length (description (_review_task_fn code_output agent))
   <= review_ceiling)%nat.
Proof.
  rewrite review_prompt_length.
  pose proof (clip_length 1000 code_output). unfold review_ceiling. lia.
Qed.

Lemma task_prompts_bounded_improve review_notes original_code agent :
  (String.length (description (_improvement_task_fn review_notes original_code agent))
   <= improvement_ceiling)%nat.
Proof.
  rewrite improvement_prompt_length.
  pose proof (clip_length 100 review_notes). pose proof (clip_length 2000 original_code).
  unfold improvement_ceiling. lia.
Qed.

(** X4. The prompts of the reviewer and of the improver have a ceiling
    that no input can pass: 1223 and 2532 characters. *)
Theorem task_prompts_bounded :
  (forall code_output agent,
     (String.length (description (_review_task_fn code_output agent))
      <= review_ceiling)%nat) /\
  (forall review_notes original_code agent,
     (String.length (description (_improvement_task_fn review_notes original_code agent))
      <= improvement_ceiling)%nat).
Proof.
  split.
  - apply task_prompts_bounded_review.
  - apply task_prompts_bounded_improve.
Qed.

(** X5. Every prompt [run_crew] hands to a stage is within the ceiling of
    that stage, whatever the requirement, the retrieved payload and the
    outputs of the earlier stages. *)
Theorem run_crew_prompts_bounded self code_requirements role prompt :
  In (Kickoff role prompt)
     (trace (run_crew connect repr_set repr crew_kickoff self code_requirements)) ->
  (role = "Code Generator" /\ (String.length prompt <= generation_ceiling)%nat) \/
  (role = "Code Reviewer" /\ (String.length prompt <= review_ceiling)%nat) \/
  (role = "Code Improver" /\ (String.length prompt <= improvement_ceiling)%nat).
Proof.
  destruct (run_crew_eq self code_requirements)
    as (ts & payloads & examples_text & Hs & Hk & Hex & Heq).
  cbv zeta in Heq. rewrite Heq. clear Heq. unfold trace. cbn [fst In].
  intros [[=] | Hin]. apply in_app_or in Hin as [Hin | [[=] | Hin]].
  - assert (In (Kickoff role prompt) (List.filter is_kickoff ts)) as Hf
      by (apply filter_In; now split).
    rewrite Hk in Hf. destruct Hf.
  - apply stages_kickoffs in Hin
      as [[-> ->] | [(out & -> & ->) | (notes & out & -> & ->)]].
    + left. split; [reflexivity |]. cbn [description].
      rewrite generation_prompt_length.
      pose proof (clip_length 200 code_requirements).
      assert (String.length examples_text <= 1037)%nat.
      { destruct Hex as [[_ ->] | (ex & rest & content & _ & _ & ->)]; [cbn; lia |].
        rewrite !str_length_app. pose proof (clip_length 1000 content). cbn. lia. }
      unfold generation_ceiling. lia.
    + right; left. split; [reflexivity | apply task_prompts_bounded_review].
    + right; right. split; [reflexivity | apply task_prompts_bounded_improve].
Qed.


End PipelineRun.

(** ** Retrieval and generation of the document and test-case generators *)

Section Generators.

Import Spec.

Variable groq : ChatRequest -> res ChatCompletion.

Lemma mret_inj {A} (a b : A) : (mret a : Py.M A) = mret b -> a = b.
Proof. intros [= ->]. reflexivity. Qed.

Lemma search_events_searches client v top_k cols :
  List.filter is_search (flat_map (search_events client v top_k) cols)
  = map (fun c => Search c top_k) cols.
Proof.
  induction cols as [|c cols IH]; [reflexivity |].
  cbn [flat_map map]. rewrite List.filter_app, IH. unfold search_events.
  destruct (search client c v top_k); reflexivity.
Qed.

Lemma found_or_skipped_all_fail client v top_k cols :
  (forall c, In c cols -> exists e, search client c v top_k = Raise e) ->
  flat_map (found_or_skipped client v top_k) cols = [].
Proof.
  induction cols as [|c cols IH]; intros H; [reflexivity |].
  cbn [flat_map]. rewrite IH by (intros c' Hc'; apply H; now right).
  unfold found_or_skipped. destruct (H c (or_introl eq_refl)) as [e ->]. reflexivity.
Qed.

(** X9. [search_vector_db] never raises. It searches every configured
    collection exactly once, in order and with limit [top_k], whichever
    searches fail, and returns the matches of the successful searches in
    the order of the collections, without ranking them; when every search
    fails it returns the empty list. *)
Theorem search_vector_db_searches_all self query top_k :
  exists query_vector,
    FunctionDocumentGenerator.generate_embeddings self query = mret query_vector /\
    List.filter is_search
      (trace (FunctionDocumentGenerator.search_vector_db self query top_k))
    = map (fun c => Search c top_k) (FunctionDocumentGenerator.collection_names self) /\
    outcome (FunctionDocumentGenerator.search_vector_db self query top_k)
    = Ok (flat_map
            (found_or_skipped (FunctionDocumentGenerator.qdrant_client self)
               query_vector top_k)
            (FunctionDocumentGenerator.collection_names self)) /\
    ((forall c, In c (FunctionDocumentGenerator.collection_names self) ->
        exists e, search (FunctionDocumentGenerator.qdrant_client self) c
                    query_vector top_k = Raise e) ->
     outcome (FunctionDocumentGenerator.search_vector_db self query top_k) = Ok []).
Proof.
  destruct (search_vector_db_skips_failures self query top_k) as (v & Hv & Heq).
  exists v. split; [exact Hv |]. rewrite Heq. unfold trace, outcome. cbn [fst snd].
  split; [apply search_events_searches |]. split; [reflexivity |].
  intros Hall. now rewrite found_or_skipped_all_fail.
Qed.

(** X10. [generate_function_document] asks the backend once, after the
    retrieval, whatever the store did: the context in the prompt is the
    text fields of the matches that have one, joined by newlines in the
    order of the collections (empty when every search failed). The answer
    of the backend is returned, and a failure of the backend is raised to
    the caller, not caught. *)
Theorem generate_function_document_context self function_requirement query_vector texts :
  FunctionDocumentGenerator.generate_embeddings self function_requirement
    = mret query_vector ->
  join_items 0
    (map text_of
       (List.filter FunctionDocumentGenerator.has_text
          (flat_map
             (found_or_skipped (FunctionDocumentGenerator.qdrant_client self)
                query_vector 5)
             (FunctionDocumentGenerator.collection_names self))))
    = Ok texts ->
  let doc := FunctionDocumentGenerator.generate_function_document groq self
               function_requirement in
  List.filter is_completion (trace doc)
  = [ Completion "llama3-8b-8192"
        [ {| role := "system";
             content := "You are a technical documentation specialist." |};
          {| role := "user";
             content := FunctionDocumentGenerator.document_prompt function_requirement
                          (String.concat nl texts) |} ] ] /\
  ((forall c, In c (FunctionDocumentGenerator.collection_names self) ->
      exists e, search (FunctionDocumentGenerator.qdrant_client self) c
                  query_vector 5 = Raise e) ->
   texts = []) /\
  (forall e, (forall rq, groq rq = Raise e) -> outcome doc = Raise e) /\
  (forall m rest, (forall rq, groq rq = Ok {| completion_choices := m :: rest |}) ->
                  outcome doc = Ok (content m)).
Proof.
  intros Hv Hj doc. subst doc.
  destruct (search_vector_db_skips_failures self function_requirement 5)
    as (v & Hv' & Heq).
  rewrite Hv in Hv'. apply mret_inj in Hv'. subst v.
  unfold FunctionDocumentGenerator.generate_function_document.
  rewrite Heq, bind_ok. unfold str_join.
  change (fun result : ScoredPoint => dict_get "text" (VStr "") (payload result))
    with text_of.
  rewrite Hj, bind_ret_l.
  unfold FunctionDocumentGenerator.generate_document_with_llama. cbv zeta.
  unfold chat_create, call.
  set (rq := {| chat_model := "llama3-8b-8192" |}).
  split; [| split; [| split]].
  - unfold trace. cbn [fst]. rewrite List.filter_app.
    assert (List.filter is_completion
              (flat_map (search_events (FunctionDocumentGenerator.qdrant_client self)
                           query_vector 5)
                 (FunctionDocumentGenerator.collection_names self)) = []) as ->.
    { apply filter_none. intros ev Hev. apply in_flat_map in Hev as (c & _ & Hc).
      unfold search_events in Hc.
      destruct (search _ c query_vector 5); cbn in Hc;
        intuition (subst; reflexivity). }
    destruct (groq rq) as [[[|m rest]] | e]; reflexivity.
  - intros Hall. rewrite found_or_skipped_all_fail in Hj by exact Hall.
    cbn in Hj. congruence.
  - intros e He. rewrite (He rq). reflexivity.
  - intros m rest Hok. rewrite (Hok rq). reflexivity.
Qed.

Lemma try_first_content {B} response (k : string -> Py.M B) h :
  try_except (first_message_content response ≫= k) h
  = match completion_choices response with
    | [] => h (Exception "list index out of range")
    | m :: _ => try_except (k (content m)) h
    end.
Proof.
  unfold first_message_content. destruct (completion_choices response) as [|m rest].
  - unfold raise, mbind, M_bind, Py.bind, try_except. now destruct (h _).
  - now rewrite bind_ret_l.
Qed.

Variable _parse_test_scenarios : string -> Py.M (list value).
Variable _parse_steps_and_result : string -> Py.M value.

(** X11. [generate_test_steps] calls the retrieval outside its handler:
    when the search of one collection fails, the failure is raised to the
    caller, the later collections are not searched and the backend is never
    asked. *)
Theorem generate_test_steps_retrieval_failure
    self test_scenario test_description found query_vector pre c post e :
  FlexcubeTestCaseGenerator._pad_embeddings self
    (encode (FlexcubeTestCaseGenerator.embedding_model self)
       (test_scenario +:+ " " +:+ test_description)) = mret query_vector ->
  FlexcubeTestCaseGenerator.collection_names self = pre ++ c :: post ->
  (forall c', In c' pre ->
     search (FlexcubeTestCaseGenerator.qdrant_client self) c' query_vector 5
       = Ok (found c')) ->
  search (FlexcubeTestCaseGenerator.qdrant_client self) c query_vector 5 = Raise e ->
  FlexcubeTestCaseGenerator.generate_test_steps groq _parse_steps_and_result self
    test_scenario test_description
  = (map (fun c => Search c 5) (pre ++ [c]), Raise e).
Proof.
  intros Hp Hc Hs He. unfold FlexcubeTestCaseGenerator.generate_test_steps. cbv zeta.
  rewrite (semantic_search_propagates self _ 5 found query_vector pre c post e)
    by assumption.
  reflexivity.
Qed.


(** X13. [generate_test_scenarios] never raises: a failure of the backend,
    an answer without choices and a failure of the parser all give the
    empty list of scenarios. *)
Theorem generate_test_scenarios_degrades self requirement :
  let scenarios := FlexcubeTestCaseGenerator.generate_test_scenarios groq
                     _parse_test_scenarios self requirement in
  (exists l, outcome scenarios = Ok l) /\
  (forall e, (forall rq, groq rq = Raise e) -> outcome scenarios = Ok []) /\
  ((forall rq, groq rq = Ok {| completion_choices := [] |}) ->
     outcome scenarios = Ok []) /\
  (forall e, (forall text, exists t', _parse_test_scenarios text = (t', Raise e)) ->
     outcome scenarios = Ok []).
Proof.
  intros scenarios. subst scenarios.
  unfold FlexcubeTestCaseGenerator.generate_test_scenarios. cbv zeta.
  unfold chat_create. rewrite try_except_bind_call.
  set (rq := {| chat_model := "llama3-8b-8192" |}).
  unfold outcome. cbn [snd].
  split; [| split; [| split]].
  - destruct (groq rq) as [response | e]; [| cbn; eauto].
    rewrite try_first_content. destruct (completion_choices response) as [|m rest];
      [cbn; eauto |].
    destruct (_parse_test_scenarios (content m)) as [t' [v|e]]; cbn; eauto.
  - intros e He. rewrite (He rq). reflexivity.
  - intros He. rewrite (He rq), try_first_content. reflexivity.
  - intros e Hparse. destruct (groq rq) as [response | e0]; [| reflexivity].
    rewrite try_first_content. destruct (completion_choices response) as [|m rest];
      [reflexivity |].
    destruct (Hparse (content m)) as [t' ->]. reflexivity.
Qed.

(** X14. When the searches succeed and [top_k] is not negative,
    [semantic_search] searches every collection once, in order and with
    limit [top_k], and returns as many texts as the smaller of [top_k] and
    the number of matches gathered: none for [top_k = 0]. *)
Theorem semantic_search_count self query top_k found query_vector :
  0 <= top_k ->
  FlexcubeTestCaseGenerator._pad_embeddings self
    (encode (FlexcubeTestCaseGenerator.embedding_model self) query) = mret query_vector ->
  (forall c, In c (FlexcubeTestCaseGenerator.collection_names self) ->
     search (FlexcubeTestCaseGenerator.qdrant_client self) c query_vector top_k
       = Ok (found c)) ->
  trace (FlexcubeTestCaseGenerator.semantic_search self query top_k)
    = map (fun c => Search c top_k) (FlexcubeTestCaseGenerator.collection_names self) /\
  exists texts,
    outcome (FlexcubeTestCaseGenerator.semantic_search self query top_k) = Ok texts /\
    Z.of_nat (length texts)
    = Z.min top_k
        (Z.of_nat (length (concat (map found
                                     (FlexcubeTestCaseGenerator.collection_names self))))) /\
    (top_k = 0 -> texts = []).
Proof.
  intros Hk Hp Hs.
  rewrite (semantic_search_eq self query top_k found query_vector Hp Hs).
  split; [reflexivity |]. eexists. split; [reflexivity |].
  rewrite list_slice_to_nonneg by exact Hk. split.
  - rewrite length_map, length_firstn.
    rewrite (Permutation_length (sort_desc_perm score _)). lia.
  - intros ->. reflexivity.
Qed.

End Generators.

Section Clip.

Import CodeGenerator.

(** X15. Clipping is idempotent and keeps the start of the text: a text
    that was clipped at [n] is not changed by clipping it at [n] again, and
    a clipped text has at most [n + 3] characters, the first [n] of them
    those of the original. *)
Theorem clip_idempotent n s :
  clip n (clip n s) = clip n s /\
  (String.length (clip n s) <= n + 3)%nat /\
  slice_to n (clip n s) = slice_to n s.
Proof.
  destruct (Nat.le_gt_cases (String.length s) n) as [H | H].
  - rewrite !clip_le by (rewrite ?clip_le; exact H). repeat split. lia.
  - destruct (clip_gt n s H) as [Hc Hl].
    assert (slice_to n (clip n s) = slice_to n s) as Hslice.
    { rewrite Hc. rewrite <- (slice_to_length n s) at 1 by lia. apply slice_to_app. }
    split; [| split; [lia | exact Hslice]].
    destruct (clip_gt n (clip n s)) as [Hc2 _]; [lia |].
    rewrite Hc2, Hslice. now rewrite Hc.
Qed.

End Clip.

(** ** The further theorems applied *)

Section MoreWitnesses.

Import CodeGenerator Spec Examples.


Lemma run_crew_stage_failure_witness :
  outcome (run_crew connect_store no_set_repr no_repr crew_down generator_without_model
             "add a function") = Ok run_crew_error /\
  outcome (run_crew connect_store no_set_repr no_repr crew_review_down
             generator_without_model "add a function") = Ok run_crew_error /\
  outcome (run_crew connect_store no_set_repr no_repr crew_improve_down
             generator_without_model "add a function") = Ok run_crew_error.
Proof.
  split; [| split].
  - apply (proj1 (run_crew_stage_failure connect_store no_set_repr no_repr crew_down
                    generator_without_model "add a function"
                    (Exception "backend unreachable"))).
    intros task _. reflexivity.
  - apply (proj1 (proj2 (run_crew_stage_failure connect_store no_set_repr no_repr
                           crew_review_down generator_without_model "add a function"
                           (Exception "backend unreachable"))) "generated").
    + intros task H. unfold crew_review_down. rewrite H. reflexivity.
    + reflexivity.
  - apply (proj2 (proj2 (run_crew_stage_failure connect_store no_set_repr no_repr
                           crew_improve_down generator_without_model "add a function"
                           (Exception "backend unreachable"))) "generated" "reviewed").
    + intros task H. unfold crew_improve_down. rewrite H. reflexivity.
    + reflexivity.
    + reflexivity.
Defined.

Lemma run_crew_prompts_bounded_witness :
  (String.length
     (unlines (code_gen_header ++ [clip 200 requirement_5000; ""; ""; ""]))
   <= generation_ceiling)%nat.
Proof.
  destruct (run_crew_prompts_bounded connect_store no_set_repr no_repr crew_down
              generator_without_model requirement_5000 "Code Generator"
              (unlines (code_gen_header ++ [clip 200 requirement_5000; ""; ""; ""])))
    as [[_ H] | [[H _] | [H _]]].
  - vm_compute. right; right; right; left. reflexivity.
  - exact H.
  - discriminate H.
  - discriminate H.
Defined.

Lemma search_relevant_code_one_search_witness :
  In (Search "B" 1)
     (trace (search_relevant_code connect_store no_set_repr generator_b "PL/SQL" 1)) /\
  In "B" (collections generator_b).
Proof.
  assert (In (Search "B" 1)
            (trace (search_relevant_code connect_store no_set_repr generator_b "PL/SQL" 1)))
    as Hin by (vm_compute; left; reflexivity).
  split; [exact Hin |].
  exact (proj1 (proj2 (proj2 (search_relevant_code_one_search connect_store no_set_repr
                                generator_b "PL/SQL" 1) "B" 1 Hin))).
Defined.

Lemma search_relevant_code_first_collection_witness :
  outcome (search_relevant_code connect_store no_set_repr generator_b "PL/SQL" 1)
  = Ok [VDict [("text", VStr "b 0.99")]].
Proof.
  destruct (search_relevant_code_first_collection connect_store no_set_repr
              generator_b "PL/SQL" 1 minilm store ["A"; "B"]
              ["Sql_Database"] "B" ["A"]) as [_ Hout];
    [reflexivity | reflexivity | reflexivity | reflexivity | | |].
  - intros p [<- | []] [H | [H | []]]; discriminate H.
  - right; left. reflexivity.
  - rewrite Hout. reflexivity.
Defined.


Lemma search_vector_db_searches_all_witness :
  outcome (FunctionDocumentGenerator.search_vector_db (docgen minilm store_down) "query" 5)
  = Ok [].
Proof.
  destruct (search_vector_db_searches_all (docgen minilm store_down) "query" 5)
    as (v & _ & _ & _ & Hall).
  apply Hall. intros c _. exists (Exception "timed out"). reflexivity.
Defined.

Lemma generate_function_document_context_witness :
  outcome (FunctionDocumentGenerator.generate_function_document groq_answer
             (docgen minilm store) "interest")
  = Ok "Test Steps: 1. Open" /\
  outcome (FunctionDocumentGenerator.generate_function_document groq_down
             (docgen minilm store_down) "interest")
  = Raise (Exception "connection refused").
Proof.
  split.
  - destruct (generate_function_document_context groq_answer (docgen minilm store)
                "interest" (repeat (1 # 2)%Q 384 ++ repeat 0%Q 512)
                ["a 0.9"; "a 0.95"; "a 0.2"; "b 0.99"])
      as (_ & _ & _ & Hok); [vm_compute; reflexivity | vm_compute; reflexivity |].
    apply (Hok {| role := "assistant"; content := "Test Steps: 1. Open" |} []).
    intros rq. reflexivity.
  - destruct (generate_function_document_context groq_down (docgen minilm store_down)
                "interest" (repeat (1 # 2)%Q 384 ++ repeat 0%Q 512) [])
      as (_ & _ & Hdown & _); [vm_compute; reflexivity | vm_compute; reflexivity |].
    apply Hdown. intros rq. reflexivity.
Defined.

Lemma generate_test_steps_retrieval_failure_witness :
  FlexcubeTestCaseGenerator.generate_test_steps groq_answer parse_steps
    (flexcube store_a_down) "Open account" "A customer opens an account"
  = ([Search "A" 5], Raise (Exception "timed out")).
Proof.
  apply (generate_test_steps_retrieval_failure groq_answer parse_steps
           (flexcube store_a_down) "Open account" "A customer opens an account"
           (fun _ => []) (repeat (1 # 2)%Q 384 ++ repeat 0%Q 512) [] "A" ["B"]
           (Exception "timed out")).
  - vm_compute. reflexivity.
  - reflexivity.
  - intros c' [].
  - reflexivity.
Defined.


Lemma generate_test_scenarios_degrades_witness :
  outcome (FlexcubeTestCaseGenerator.generate_test_scenarios groq_down
             parse_scenarios_fail (flexcube store) "Open account") = Ok [] /\
  outcome (FlexcubeTestCaseGenerator.generate_test_scenarios groq_answer
             parse_scenarios_fail (flexcube store) "Open account") = Ok [].
Proof.
  split.
  - apply (proj1 (proj2 (generate_test_scenarios_degrades groq_down parse_scenarios_fail
                           (flexcube store) "Open account"))
             (Exception "connection refused")).
    intros rq. reflexivity.
  - apply (proj2 (proj2 (proj2 (generate_test_scenarios_degrades groq_answer
                                  parse_scenarios_fail (flexcube store) "Open account")))
             (Exception "expected string or bytes-like object")).
    intros text. eexists. reflexivity.
Defined.

Lemma semantic_search_count_witness :
  exists texts,
    outcome (FlexcubeTestCaseGenerator.semantic_search (flexcube store) "query" 3)
      = Ok texts /\
    Z.of_nat (length texts) = 3.
Proof.
  destruct (semantic_search_count (flexcube store) "query" 3
              (fun c => found_or_skipped store [] 3 c)
              (repeat (1 # 2)%Q 384 ++ repeat 0%Q 512))
    as (_ & texts & Hout & Hlen & _).
  - lia.
  - vm_compute. reflexivity.
  - intros c [<- | [<- | []]]; reflexivity.
  - exists texts. split; [exact Hout |]. rewrite Hlen. reflexivity.
Defined.

End MoreWitnesses.
